(** * Client-side authentication flow: AuthService and useFindId

    A shallow embedding of the duplicate-check service
    ([AuthService.checkDuplicate]), the signup form validation
    ([AuthService.validateSignupData]) and the find-id form controller
    ([useFindId]), together with the properties stated about them.

    JavaScript strings are sequences of UTF-16 code units; promises are
    modelled by their completion (resolved value or thrown value) and the
    network by the list of requests issued, in order. *)

From Stdlib Require Import NArith String Ascii List Bool Lia.
From stdpp Require Import gmap strings list fin_maps.
Import ListNotations.

Local Open Scope N_scope.

(** ** JavaScript strings *)

Module JsString.

(** A JavaScript string: its UTF-16 code units. [s.length] is the number
    of code units, [===] is equality of the sequences. *)
Definition jsstring := list N.

(** Code point of a two-, three- and four-byte UTF-8 sequence. *)
Definition utf8_cp2 (b0 b1 : N) : N :=
  N.lor (N.shiftl (N.land b0 0x1F) 6) (N.land b1 0x3F).

Definition utf8_cp3 (b0 b1 b2 : N) : N :=
  N.lor (N.shiftl (N.land b0 0x0F) 12)
        (N.lor (N.shiftl (N.land b1 0x3F) 6) (N.land b2 0x3F)).

Definition utf8_cp4 (b0 b1 b2 b3 : N) : N :=
  N.lor (N.shiftl (N.land b0 0x07) 18)
        (N.lor (N.shiftl (N.land b1 0x3F) 12)
               (N.lor (N.shiftl (N.land b2 0x3F) 6) (N.land b3 0x3F))).

(** UTF-16 encoding of one code point: itself in the basic plane, a
    surrogate pair above it. *)
Definition utf16_units (cp : N) : jsstring :=
  if cp <? 0x10000 then [cp]
  else let v := cp - 0x10000 in
       [0xD800 + N.shiftr v 10; 0xDC00 + N.land v 0x3FF].

(** The string a source literal denotes: the file's UTF-8 bytes decoded
    to UTF-16. A truncated sequence decodes to U+FFFD. *)
Fixpoint js (s : string) : jsstring :=
  match s with
  | EmptyString => []
  | String a r0 =>
      let b0 := N_of_ascii a in
      if b0 <? 0x80 then b0 :: js r0
      else if b0 <? 0xE0 then
        match r0 with
        | String b r1 => utf8_cp2 b0 (N_of_ascii b) :: js r1
        | _ => [0xFFFD]
        end
      else if b0 <? 0xF0 then
        match r0 with
        | String b (String c r2) =>
            utf8_cp3 b0 (N_of_ascii b) (N_of_ascii c) :: js r2
        | _ => [0xFFFD]
        end
      else
        match r0 with
        | String b (String c (String d r3)) =>
            utf16_units (utf8_cp4 b0 (N_of_ascii b) (N_of_ascii c) (N_of_ascii d))
              ++ js r3
        | _ => [0xFFFD]
        end
  end.

(** ToBoolean on a string: only the empty string is falsy. *)
Definition truthy (s : jsstring) : bool :=
  match s with [] => false | _ :: _ => true end.

(** [===] on strings. *)
Definition str_eqb (a b : jsstring) : bool := bool_decide (a = b).

(** WhiteSpace and LineTerminator code units of ECMAScript: the set that
    [String.prototype.trim] strips and that [\s] matches. *)
Definition isWhiteSpace (c : N) : bool :=
  existsb (N.eqb c)
    [0x0009; 0x000A; 0x000B; 0x000C; 0x000D; 0x0020; 0x00A0; 0x1680;
     0x2028; 0x2029; 0x202F; 0x205F; 0x3000; 0xFEFF]
  || ((0x2000 <=? c) && (c <=? 0x200A)).

Fixpoint trimStart (s : jsstring) : jsstring :=
  match s with
  | c :: r => if isWhiteSpace c then trimStart r else s
  | [] => []
  end.

Definition trimEnd (s : jsstring) : jsstring := rev (trimStart (rev s)).

(** [s.trim()] *)
Definition trim (s : jsstring) : jsstring := trimEnd (trimStart s).

End JsString.
Import JsString.

(** ** Regular expressions

    The fragment of ECMAScript patterns used by the code: character
    classes, concatenation, alternation and repetition, matched against
    the whole input (a pattern between [^] and [$], without flags).
    [RegExp.prototype.test] answers whether some way of matching exists,
    so it decides membership in the pattern's language; it is computed
    here with derivatives. *)

Module Regex.

Inductive regex : Type :=
| Void
| Eps
| Class (p : N -> bool)
| Cat (r1 r2 : regex)
| Alt (r1 r2 : regex)
| Star (r : regex).

(** A literal character, and [r+]. *)
Definition Chr (c : N) : regex := Class (N.eqb c).
Definition Plus (r : regex) : regex := Cat r (Star r).

Inductive lang : regex -> jsstring -> Prop :=
| L_eps : lang Eps []
| L_class p c : p c = true -> lang (Class p) [c]
| L_cat r1 r2 s1 s2 : lang r1 s1 -> lang r2 s2 -> lang (Cat r1 r2) (s1 ++ s2)
| L_alt_l r1 r2 s : lang r1 s -> lang (Alt r1 r2) s
| L_alt_r r1 r2 s : lang r2 s -> lang (Alt r1 r2) s
| L_star_nil r : lang (Star r) []
| L_star_app r s1 s2 :
    lang r s1 -> lang (Star r) s2 -> lang (Star r) (s1 ++ s2).

Fixpoint nullable (r : regex) : bool :=
  match r with
  | Void => false
  | Eps => true
  | Class _ => false
  | Cat r1 r2 => nullable r1 && nullable r2
  | Alt r1 r2 => nullable r1 || nullable r2
  | Star _ => true
  end.

Fixpoint deriv (c : N) (r : regex) : regex :=
  match r with
  | Void => Void
  | Eps => Void
  | Class p => if p c then Eps else Void
  | Cat r1 r2 =>
      if nullable r1 then Alt (Cat (deriv c r1) r2) (deriv c r2)
      else Cat (deriv c r1) r2
  | Alt r1 r2 => Alt (deriv c r1) (deriv c r2)
  | Star r1 => Cat (deriv c r1) (Star r1)
  end.

Fixpoint matches (r : regex) (s : jsstring) : bool :=
  match s with
  | [] => nullable r
  | c :: s' => matches (deriv c r) s'
  end.

(** [/^r$/.test(s)] *)
Definition test (r : regex) (s : jsstring) : bool := matches r s.

End Regex.


(** ** Completions and the network *)

Module Js.

(** What a [throw] or a rejected promise carries: an [Error] instance
    with its message, a plain string, or some other value. *)
Inductive thrown : Type :=
| ErrorObject (message : jsstring)
| StringValue (s : jsstring)
| OtherValue.

(** [error instanceof Error] *)
Definition instanceofError (t : thrown) : bool :=
  match t with ErrorObject _ => true | _ => false end.

(** How a call or an awaited promise ends. *)
Inductive completion (A : Type) : Type :=
| Normal (a : A)
| Throw (t : thrown).
Arguments Normal {A} a.
Arguments Throw {A} t.

(** A JSON value, as [response.json()] resolves to. A number is kept by
    what can be asked of it here: whether it is zero (the only falsy
    numbers JSON can give) and the string ToString gives for it, as
    [42] and its text ["42"]. An object is kept by its own properties. *)
#[local] Set Warnings "-register-all".
Inductive json : Type :=
| JNull
| JBool (b : bool)
| JNumber (zero : bool) (text : jsstring)
| JString (s : jsstring)
| JArray (items : list json)
| JObject (properties : list (jsstring * json)).

(** ToBoolean *)
Definition ToBoolean (v : json) : bool :=
  match v with
  | JNull => false
  | JBool b => b
  | JNumber zero _ => negb zero
  | JString s => truthy s
  | JArray _ => true
  | JObject _ => true
  end.

(** Whether an object has an own property of the given name. *)
Definition has_property (name : jsstring) (properties : list (jsstring * json))
  : bool :=
  existsb (fun p => str_eqb (fst p) name) properties.

(** Message of the TypeError of a failed conversion of an object to a
    primitive value (V8's wording). *)
Definition not_primitive_message : jsstring :=
  js "Cannot convert object to primitive value".

(** ToString. An array is joined with commas, [null] elements giving the
    empty string. A plain object gives ["[object Object]"] through
    [Object.prototype.toString], unless an own property [toString] hides
    that method: a JSON value is never callable, [valueOf] then gives no
    primitive either, and the conversion throws a TypeError. *)
Fixpoint ToString (v : json) : completion jsstring :=
  match v with
  | JNull => Normal (js "null")
  | JBool true => Normal (js "true")
  | JBool false => Normal (js "false")
  | JNumber _ text => Normal text
  | JString s => Normal s
  | JArray items =>
      (fix join (l : list json) : completion jsstring :=
         match l with
         | [] => Normal []
         | x :: r =>
             match (match x with JNull => Normal [] | _ => ToString x end) with
             | Throw t => Throw t
             | Normal sx =>
                 match r with
                 | [] => Normal sx
                 | _ :: _ =>
                     match join r with
                     | Throw t => Throw t
                     | Normal sr => Normal (sx ++ js "," ++ sr)
                     end
                 end
             end
         end) items
  | JObject properties =>
      if has_property (js "toString") properties
      then Throw (ErrorObject not_primitive_message)
      else Normal (js "[object Object]")
  end.

(** Induction over JSON values, through the items of an array and the
    property values of an object. *)
Section JsonInduction.

Variable P : json -> Prop.
Hypothesis P_null : P JNull.
Hypothesis P_bool : forall b, P (JBool b).
Hypothesis P_number : forall zero text, P (JNumber zero text).
Hypothesis P_string : forall s, P (JString s).
Hypothesis P_array : forall items, Forall P items -> P (JArray items).
Hypothesis P_object :
  forall properties,
    Forall (fun p => P (snd p)) properties -> P (JObject properties).

Fixpoint json_induction (v : json) : P v :=
  match v with
  | JNull => P_null
  | JBool b => P_bool b
  | JNumber zero text => P_number zero text
  | JString s => P_string s
  | JArray items =>
      P_array items
        ((fix all (l : list json) : Forall P l :=
            match l with
            | [] => @List.Forall_nil _ P
            | x :: r => @List.Forall_cons _ P x r (json_induction x) (all r)
            end) items)
  | JObject properties =>
      P_object properties
        ((fix all (l : list (jsstring * json))
            : Forall (fun p => P (snd p)) l :=
            match l with
            | [] => @List.Forall_nil _ (fun p => P (snd p))
            | p :: r =>
                @List.Forall_cons _ (fun p => P (snd p)) p r
                  (json_induction (snd p)) (all r)
            end) properties)
  end.

End JsonInduction.

(** [new Error(message)]: the message is converted with ToString, which
    can throw. *)
Definition construct_Error (message : json) : completion thrown :=
  match ToString message with
  | Normal s => Normal (ErrorObject s)
  | Throw t => Throw t
  end.

(** [a || b] where [a] is a JSON value or undefined and [b] a string. *)
Definition or_else (a : option json) (b : jsstring) : json :=
  match a with
  | Some v => if ToBoolean v then v else JString b
  | None => JString b
  end.

(** ToBoolean of a property that holds a string or is undefined. *)
Definition present (a : option jsstring) : bool :=
  match a with
  | Some s => truthy s
  | None => false
  end.

End Js.
Import Js.

Module Http.

Inductive DuplicateType : Type := TypeEmail | TypeUsername.

(** [type === 'email'] *)
Definition is_email (type : DuplicateType) : bool :=
  match type with TypeEmail => true | TypeUsername => false end.

(** The object given to [JSON.stringify] for the request body. *)
Record CheckPayload : Type := {
  payload_type : DuplicateType;
  payload_value : jsstring
}.

Record Request : Type := {
  url : jsstring;
  method : jsstring;
  headers : list (jsstring * jsstring);
  body : CheckPayload
}.

(** The body of a response as [response.json()] and [data.error] see it:
    text that is not JSON (the promise rejects with a SyntaxError of the
    given message), the JSON value [null], or any other JSON value, whose
    [error] property is undefined ([None]) or holds a JSON value of any
    kind. *)
Inductive ResponseBody : Type :=
| NotJson (syntaxError : jsstring)
| JsonNull
| JsonValue (error : option json).

Record Response : Type := {
  http_status : N;
  response_body : ResponseBody
}.

(** [response.ok]: the status is in the range 200-299. *)
Definition ok (r : Response) : bool :=
  (200 <=? http_status r) && (http_status r <=? 299).

(** What [fetch] does with a request: the promise rejects, or it
    resolves to a response. *)
Inductive FetchResult : Type :=
| NetworkFailure (t : thrown)
| Responded (r : Response).

Definition Backend : Type := Request -> FetchResult.

End Http.
Import Http.

(** ** AuthService *)

Module AuthService.

(** Computations of the service: the requests issued, in order, and the
    completion. *)
Definition Service (A : Type) : Type := list Request * completion A.

Definition ret {A} (a : A) : Service A := ([], Normal a).

Definition throw {A} (t : thrown) : Service A := ([], Throw t).

Definition bind {A B} (m : Service A) (f : A -> Service B) : Service B :=
  match m with
  | (l, Normal a) => let (l', c) := f a in (l ++ l', c)
  | (l, Throw t) => (l, Throw t)
  end.

(** [try { m } catch (error) { h error }] *)
Definition try_catch {A} (m : Service A) (h : thrown -> Service A) : Service A :=
  match m with
  | (l, Throw t) => let (l', c) := h t in (l ++ l', c)
  | (l, Normal a) => (l, Normal a)
  end.

Declare Scope service_scope.
Delimit Scope service_scope with service.
Notation "'let*' x ':=' m 'in' f" := (bind m (fun x => f))
  (at level 10, x name, m at level 100, f at level 200) : service_scope.

(** [await fetch(url, init)] *)
Definition await_fetch (fetch : Backend) (req : Request) : Service Response :=
  ([req], match fetch req with
          | NetworkFailure t => Throw t
          | Responded r => Normal r
          end).

(** [await response.json()] *)
Definition await_json (r : Response) : Service ResponseBody :=
  match response_body r with
  | NotJson e => throw (ErrorObject e)
  | b => ret b
  end.

(** Message of the TypeError raised by reading a property of [null]
    (V8's wording; no property below depends on it). *)
Definition null_property_message : jsstring :=
  js "Cannot read properties of null (reading 'error')".

(** [data.error]; the last case does not arise, [await_json] having
    thrown on such a body. *)
Definition get_error (data : ResponseBody) : Service (option json) :=
  match data with
  | JsonValue e => ret e
  | JsonNull => throw (ErrorObject null_property_message)
  | NotJson _ => ret None
  end.

(** [new Error(message)] *)
Definition new_Error (message : json) : Service thrown :=
  ([], construct_Error message).

Definition API_BASE : jsstring := js "/api/auth".

Definition DUPLICATE_FALLBACK : jsstring := js "중복 확인 중 오류가 발생했습니다.".

(** The request of the duplicate check: the URL and the [init] object
    given to [fetch]. *)
Definition check_request (type : DuplicateType) (value : jsstring) : Request :=
  {| url := API_BASE ++ js "/check/"
              ++ (if is_email type then js "email" else js "username");
     method := js "POST";
     headers := [(js "Content-Type", js "application/json")];
     body := {| payload_type := type; payload_value := trim value |} |}.

Definition checkDuplicate (fetch : Backend) (type : DuplicateType)
    (value : jsstring) : Service bool :=
  if negb (truthy (trim value)) then
    throw (ErrorObject
             ((if is_email type then js "이메일" else js "닉네임")
                ++ js "을 입력해주세요."))
  else
    try_catch
      (let* response := await_fetch fetch (check_request type value) in
       let* data := await_json response in
       if negb (ok response) then
         let* e := get_error data in
         let* error := new_Error (or_else e DUPLICATE_FALLBACK) in
         throw error
       else
         ret true)%service
      (fun error =>
         if instanceofError error then throw error
         else throw (ErrorObject DUPLICATE_FALLBACK)).

Definition checkEmailDuplicate (fetch : Backend) (email : jsstring)
  : Service bool :=
  checkDuplicate fetch TypeEmail email.

Definition checkUsernameDuplicate (fetch : Backend) (username : jsstring)
  : Service bool :=
  checkDuplicate fetch TypeUsername username.

(** The fields of the signup form that the validation reads. A field is
    [None] when the property is missing from the object. *)
Record SignupData : Type := {
  email : option jsstring;
  password : option jsstring;
  confirmPassword : option jsstring;
  username : option jsstring;
  address : option jsstring
}.

(** [/^[^\s@]+@[^\s@]+\.[^\s@]+$/] *)
Definition notSpaceOrAt (c : N) : bool :=
  negb (isWhiteSpace c || (c =? 0x40)).

Definition emailRegex : Regex.regex :=
  Regex.Cat (Regex.Plus (Regex.Class notSpaceOrAt))
    (Regex.Cat (Regex.Chr 0x40)
       (Regex.Cat (Regex.Plus (Regex.Class notSpaceOrAt))
          (Regex.Cat (Regex.Chr 0x2E)
             (Regex.Plus (Regex.Class notSpaceOrAt))))).

Definition MSG_EMAIL_REQUIRED : jsstring := js "이메일을 입력해주세요.".
Definition MSG_PASSWORD_REQUIRED : jsstring := js "비밀번호를 입력해주세요.".
Definition MSG_CONFIRM_REQUIRED : jsstring := js "비밀번호 확인이 필요합니다.".
Definition MSG_USERNAME_REQUIRED : jsstring := js "닉네임을 입력해주세요.".
Definition MSG_ADDRESS_REQUIRED : jsstring := js "주소를 입력해주세요.".
Definition MSG_EMAIL_FORMAT : jsstring := js "올바른 이메일 형식을 입력해주세요.".
Definition MSG_PASSWORD_LENGTH : jsstring := js "비밀번호는 8자 이상이어야 합니다.".
Definition MSG_PASSWORD_MISMATCH : jsstring := js "비밀번호가 일치하지 않습니다.".

(** [data.email && !emailRegex.test(data.email)] *)
Definition email_malformed (data : SignupData) : bool :=
  match email data with
  | Some e => truthy e && negb (Regex.test emailRegex e)
  | None => false
  end.

(** [data.password && data.password.length < 8] *)
Definition password_short (data : SignupData) : bool :=
  match password data with
  | Some p => truthy p && (length p <? 8)%nat
  | None => false
  end.

(** [data.password && data.confirmPassword
     && data.password !== data.confirmPassword] *)
Definition password_mismatch (data : SignupData) : bool :=
  match password data, confirmPassword data with
  | Some p, Some c => truthy p && truthy c && negb (str_eqb p c)
  | _, _ => false
  end.

(** [if (cond) errors.key = msg;] *)
Definition set_if (cond : bool) (key : string) (msg : jsstring)
    (errors : gmap string jsstring) : gmap string jsstring :=
  if cond then <[key := msg]> errors else errors.

Definition validateSignupData (data : SignupData) : gmap string jsstring :=
  let errors : gmap string jsstring := ∅ in
  let errors := set_if (negb (present (email data)))
                  "email" MSG_EMAIL_REQUIRED errors in
  let errors := set_if (negb (present (password data)))
                  "password" MSG_PASSWORD_REQUIRED errors in
  let errors := set_if (negb (present (confirmPassword data)))
                  "confirmPassword" MSG_CONFIRM_REQUIRED errors in
  let errors := set_if (negb (present (username data)))
                  "username" MSG_USERNAME_REQUIRED errors in
  let errors := set_if (negb (present (address data)))
                  "address" MSG_ADDRESS_REQUIRED errors in
  let errors := set_if (email_malformed data)
                  "email" MSG_EMAIL_FORMAT errors in
  let errors := set_if (password_short data)
                  "password" MSG_PASSWORD_LENGTH errors in
  let errors := set_if (password_mismatch data)
                  "confirmPassword" MSG_PASSWORD_MISMATCH errors in
  errors.

(** The payload all of whose fields are missing: [{}]. *)
Definition empty_payload : SignupData :=
  {| email := None; password := None; confirmPassword := None;
     username := None; address := None |}.

End AuthService.

(** ** Vocabulary of the email property

    The words of the statement about email addresses, as definitions of
    their own, to be compared with what [emailRegex] accepts. *)

Module EmailSpec.

Definition AT : N := 0x40.
Definition DOT : N := 0x2E.


(** A non-empty run of code units free of white space and of [@]. *)
Definition plainPart (p : jsstring) : Prop :=
  p <> [] /\ Forall (fun c => isWhiteSpace c = false /\ c <> AT) p.

(** A well-formed address: [local@domain.tld] with plain parts. *)
Definition wellFormed (s : jsstring) : Prop :=
  exists l d t,
    s = l ++ AT :: d ++ DOT :: t /\ plainPart l /\ plainPart d /\ plainPart t.

End EmailSpec.

(** ** useFindId *)

Module UseFindId.

(** ['' | 'checking' | 'success' | 'error'] *)
Inductive CheckStatus : Type :=
| StatusNone
| StatusChecking
| StatusSuccess
| StatusError.

(** The four [useState] cells of the hook. *)
Record State : Type := {
  email : jsstring;
  isChecking : bool;
  status : CheckStatus;
  message : jsstring
}.

(** What a handler does to the outside, in order: calls of the state
    setters and network requests. *)
Inductive Effect : Type :=
| SetEmail (v : jsstring)
| SetIsChecking (v : bool)
| SetStatus (v : CheckStatus)
| SetMessage (v : jsstring)
| Fetch (r : Request).

(** Computations of a handler: from the state it starts in to the state
    it leaves, the effects performed and the completion. *)
Definition Hook (A : Type) : Type :=
  State -> State * list Effect * completion A.

Definition ret {A} (a : A) : Hook A := fun st => (st, [], Normal a).

Definition throw {A} (t : thrown) : Hook A := fun st => (st, [], Throw t).

Definition bind {A B} (m : Hook A) (f : A -> Hook B) : Hook B :=
  fun st =>
    match m st with
    | (st1, l1, Normal a) =>
        match f a st1 with (st2, l2, c) => (st2, l1 ++ l2, c) end
    | (st1, l1, Throw t) => (st1, l1, Throw t)
    end.

(** [try { m } catch (error) { h error }] *)
Definition try_catch {A} (m : Hook A) (h : thrown -> Hook A) : Hook A :=
  fun st =>
    match m st with
    | (st1, l1, Throw t) =>
        match h t st1 with (st2, l2, c) => (st2, l1 ++ l2, c) end
    | (st1, l1, Normal a) => (st1, l1, Normal a)
    end.

(** [try { m } finally { f }]: [f] runs however [m] ends; the completion
    is that of [m] unless [f] itself throws. *)
Definition try_finally {A} (m : Hook A) (f : Hook unit) : Hook A :=
  fun st =>
    match m st with
    | (st1, l1, c1) =>
        match f st1 with
        | (st2, l2, Normal _) => (st2, l1 ++ l2, c1)
        | (st2, l2, Throw t) => (st2, l1 ++ l2, Throw t)
        end
    end.

Declare Scope hook_scope.
Delimit Scope hook_scope with hook.
Notation "'let*' x ':=' m 'in' f" := (bind m (fun x => f))
  (at level 10, x name, m at level 100, f at level 200) : hook_scope.
Notation "m ;; f" := (bind m (fun _ => f))
  (at level 100, f at level 200, right associativity) : hook_scope.

Definition setEmail (v : jsstring) : Hook unit :=
  fun st => ({| email := v; isChecking := isChecking st;
                status := status st; message := message st |},
             [SetEmail v], Normal tt).

Definition setIsChecking (v : bool) : Hook unit :=
  fun st => ({| email := email st; isChecking := v;
                status := status st; message := message st |},
             [SetIsChecking v], Normal tt).

Definition setStatus (v : CheckStatus) : Hook unit :=
  fun st => ({| email := email st; isChecking := isChecking st;
                status := v; message := message st |},
             [SetStatus v], Normal tt).

Definition setMessage (v : jsstring) : Hook unit :=
  fun st => ({| email := email st; isChecking := isChecking st;
                status := status st; message := v |},
             [SetMessage v], Normal tt).

(** The [email] captured by the handler's closure. *)
Definition read_email : Hook jsstring :=
  fun st => (st, [], Normal (email st)).

(** [await] of a call into the service. *)
Definition await {A} (m : AuthService.Service A) : Hook A :=
  fun st => (st, map Fetch (fst m), snd m).

Definition getErrorMessage (error : thrown) : jsstring :=
  match error with
  | ErrorObject m => m
  | StringValue s => s
  | OtherValue => js "알 수 없는 오류가 발생했습니다."
  end.

(** The initial values given to [useState]. *)
Definition initial : State :=
  {| email := []; isChecking := false; status := StatusNone; message := [] |}.

Record ZodIssue : Type := { issue_message : jsstring }.

Inductive SafeParseResult : Type :=
| ParseSuccess (data : jsstring)
| ParseFailure (errors : list ZodIssue).

Definition MSG_INVALID_EMAIL : jsstring := js "유효한 이메일 주소를 입력해주세요.".
Definition MSG_NOT_REGISTERED : jsstring := js "가입되지 않은 이메일입니다.".
Definition MSG_REGISTERED : jsstring := js "가입된 이메일입니다.".

Section Controller.

(** The email test of the zod library, whose pattern is not part of this
    repository. *)
Variable zod_email : jsstring -> bool.

(** The backend behind [fetch]. *)
Variable fetch : Backend.

(** [emailSchema.safeParse(s)] for
    [emailSchema = z.string().email({ message })]: on a string the only
    check that can fail is the email test, which reports the configured
    message. *)
Definition emailSchema_safeParse (s : jsstring) : SafeParseResult :=
  if zod_email s then ParseSuccess s
  else ParseFailure [{| issue_message := MSG_INVALID_EMAIL |}].

Definition onChangeEmail (value : jsstring) : Hook unit :=
  (setEmail value ;;
   setStatus StatusNone ;;
   setMessage [])%hook.

Definition onCheckEmail : Hook unit :=
  (let* email := read_email in
   match emailSchema_safeParse email with
   | ParseFailure errors =>
       match errors with
       | issue :: _ =>
           setMessage (issue_message issue) ;;
           setStatus StatusError ;;
           ret tt
       | [] =>
           throw (ErrorObject
                    (js "Cannot read properties of undefined (reading 'message')"))
       end
   | ParseSuccess _ =>
       setIsChecking true ;;
       setStatus StatusChecking ;;
       setMessage [] ;;
       try_finally
         (try_catch
            (await (AuthService.checkEmailDuplicate fetch email) ;;
             setStatus StatusError ;;
             setMessage MSG_NOT_REGISTERED)
            (fun error =>
               setStatus StatusSuccess ;;
               setMessage MSG_REGISTERED))
         (setIsChecking false)
   end)%hook.

End Controller.

(** The parts of a finished run. *)
Definition final {A} (x : State * list Effect * completion A) : State :=
  fst (fst x).
Definition effects {A} (x : State * list Effect * completion A)
  : list Effect := snd (fst x).
Definition outcome {A} (x : State * list Effect * completion A)
  : completion A := snd x.

(** The network requests among the effects of a handler. *)
Definition requests (l : list Effect) : list Request :=
  flat_map (fun e => match e with Fetch r => [r] | _ => [] end) l.

End UseFindId.

(** ** Sample backends and states *)

Module Samples.
Import UseFindId.

(** A backend that answers every request with the given status and body. *)
Definition answering (code : N) (b : ResponseBody) : Backend :=
  fun _ => Responded {| http_status := code; response_body := b |}.

(** HTTP 409 with body [{error: "already exists"}]. *)
Definition conflict : Backend :=
  answering 409 (JsonValue (Some (JString (js "already exists")))).

(** HTTP 200 with a JSON object without [error]. *)
Definition available : Backend := answering 200 (JsonValue None).

(** HTTP 409 with a body whose [error] is the empty string. *)
Definition conflict_blank : Backend :=
  answering 409 (JsonValue (Some (JString []))).

(** HTTP 409 with a body whose [error] is the number 42. *)
Definition conflict_number : Backend :=
  answering 409 (JsonValue (Some (JNumber false (js "42")))).

(** HTTP 409 with body [null]. *)
Definition conflict_null : Backend := answering 409 JsonNull.

(** HTTP 200 with an empty body, which is not JSON. *)
Definition empty_ok : Backend :=
  answering 200 (NotJson (js "Unexpected end of JSON input")).

(** The hook right after the user typed [s]. *)
Definition typed (s : jsstring) : State :=
  {| email := s; isChecking := false; status := StatusNone; message := [] |}.

End Samples.

(** ** Vocabulary of trimming *)

(** Neither end of [m] is white space. *)
Definition tight (m : jsstring) : Prop :=
  (forall c, head m = Some c -> isWhiteSpace c = false) /\
  (forall c, last m = Some c -> isWhiteSpace c = false).

(** ** AuthService.signup *)

Module Signup.

(** What [signup] does to the outside, in order: the request given to
    [fetch] and the lines written with [console.error]. The payload type
    [P] stands for [SignupData], declared outside this code. *)
Record SignupRequest (P : Type) : Type := {
  signup_url : jsstring;
  signup_method : jsstring;
  signup_headers : list (jsstring * jsstring);
  signup_body : P
}.
Arguments signup_url {P} _.
Arguments signup_method {P} _.
Arguments signup_headers {P} _.
Arguments signup_body {P} _.

(** The body of the signup response as [response.json()] and the three
    property reads see it: not JSON, the JSON value [null], or another
    JSON value with its [error], [success] and [needsVerification]
    properties, each undefined ([None]) or a JSON value of any kind. *)
Inductive SignupBody : Type :=
| SignupNotJson (syntaxError : jsstring)
| SignupNull
| SignupValue (error : option json)
              (success needsVerification : option json).

Record SignupResponse : Type := {
  signup_status : N;
  signup_response_body : SignupBody
}.

(** [response.ok] *)
Definition signup_ok (r : SignupResponse) : bool :=
  (200 <=? signup_status r) && (signup_status r <=? 299).

Inductive SignupFetchResult : Type :=
| SignupNetworkFailure (t : thrown)
| SignupResponded (r : SignupResponse).

Inductive Event (P : Type) : Type :=
| Requested (r : SignupRequest P)
| ConsoleError (label : jsstring) (error : thrown).
Arguments Requested {P} r.
Arguments ConsoleError {P} label error.

Definition Trace (P A : Type) : Type := list (Event P) * completion A.

Definition ret {P A} (a : A) : Trace P A := ([], Normal a).

Definition throw {P A} (t : thrown) : Trace P A := ([], Throw t).

Definition bind {P A B} (m : Trace P A) (f : A -> Trace P B) : Trace P B :=
  match m with
  | (l, Normal a) => let (l', c) := f a in (l ++ l', c)
  | (l, Throw t) => (l, Throw t)
  end.

(** [try { m } catch (error) { h error }] *)
Definition try_catch {P A} (m : Trace P A) (h : thrown -> Trace P A)
  : Trace P A :=
  match m with
  | (l, Throw t) => let (l', c) := h t in (l ++ l', c)
  | (l, Normal a) => (l, Normal a)
  end.

Declare Scope signup_scope.
Delimit Scope signup_scope with signup.
Notation "'let*' x ':=' m 'in' f" := (bind m (fun x => f))
  (at level 10, x name, m at level 100, f at level 200) : signup_scope.
Notation "m ;; f" := (bind m (fun _ => f))
  (at level 100, f at level 200, right associativity) : signup_scope.

(** [console.error(label, error)] *)
Definition console_error {P} (label : jsstring) (error : thrown)
  : Trace P unit :=
  ([ConsoleError label error], Normal tt).

(** [await fetch(url, init)] *)
Definition await_fetch {P} (fetch : SignupRequest P -> SignupFetchResult)
    (req : SignupRequest P) : Trace P SignupResponse :=
  ([Requested req], match fetch req with
                    | SignupNetworkFailure t => Throw t
                    | SignupResponded r => Normal r
                    end).

(** [await response.json()] *)
Definition await_json {P} (r : SignupResponse) : Trace P SignupBody :=
  match signup_response_body r with
  | SignupNotJson e => throw (ErrorObject e)
  | b => ret b
  end.

(** Message of the TypeError raised by reading property [name] of
    [null] (V8's wording). *)
Definition null_read_message (name : jsstring) : jsstring :=
  js "Cannot read properties of null (reading '" ++ name ++ js "')".

(** [data.error], [data.success], [data.needsVerification]; the last
    case of each does not arise, [await_json] having thrown on it. *)
Definition get_error {P} (data : SignupBody) : Trace P (option json) :=
  match data with
  | SignupValue e _ _ => ret e
  | SignupNull => throw (ErrorObject (null_read_message (js "error")))
  | SignupNotJson _ => ret None
  end.

Definition get_success {P} (data : SignupBody) : Trace P (option json) :=
  match data with
  | SignupValue _ s _ => ret s
  | SignupNull => throw (ErrorObject (null_read_message (js "success")))
  | SignupNotJson _ => ret None
  end.

Definition get_needsVerification {P} (data : SignupBody)
  : Trace P (option json) :=
  match data with
  | SignupValue _ _ n => ret n
  | SignupNull =>
      throw (ErrorObject (null_read_message (js "needsVerification")))
  | SignupNotJson _ => ret None
  end.

(** [new Error(message)] *)
Definition new_Error {P} (message : json) : Trace P thrown :=
  ([], construct_Error message).

(** The object [signup] resolves to. *)
Record AuthResult : Type := {
  success : option json;
  needsVerification : option json
}.

Definition SIGNUP_FALLBACK : jsstring := js "회원가입 중 오류가 발생했습니다.".

Definition SIGNUP_LOG_LABEL : jsstring := js "💥 Signup error:".

(** The URL and the [init] object given to [fetch]. *)
Definition signup_request {P} (signupData : P) : SignupRequest P :=
  {| signup_url := AuthService.API_BASE ++ js "/signup";
     signup_method := js "POST";
     signup_headers := [(js "Content-Type", js "application/json")];
     signup_body := signupData |}.

Definition signup {P} (fetch : SignupRequest P -> SignupFetchResult)
    (signupData : P) : Trace P AuthResult :=
  try_catch
    (let* response := await_fetch fetch (signup_request signupData) in
     let* data := await_json response in
     if negb (signup_ok response) then
       let* e := get_error data in
       let* error := new_Error (or_else e SIGNUP_FALLBACK) in
       throw error
     else
       let* s := get_success data in
       let* n := get_needsVerification data in
       ret {| success := s; needsVerification := n |})%signup
    (fun error =>
       (console_error SIGNUP_LOG_LABEL error ;;
        if instanceofError error then throw error
        else throw (ErrorObject SIGNUP_FALLBACK))%signup).

(** What the [catch] block of [signup] throws for a caught value. *)
Definition rethrown (t : thrown) : thrown :=
  if instanceofError t then t else ErrorObject SIGNUP_FALLBACK.

End Signup.

(** ** FindIdComponent *)

Module FindIdComponent.
Import UseFindId.

Definition getMessageColor (status : CheckStatus) : jsstring :=
  match status with
  | StatusSuccess => js "text-green-600"
  | StatusError => js "text-red-600"
  | StatusChecking => js "text-gray-500"
  | StatusNone => js "text-gray-500"
  end.

(** What the component puts on the screen, as far as it depends on the
    props: the input, the message line with its class (absent when the
    message is empty) and the submit button. *)
Record Rendered : Type := {
  input_value : jsstring;
  input_disabled : bool;
  message_line : option (jsstring * jsstring);
  button_disabled : bool;
  button_label : jsstring
}.

(** The props handed over by [FindIdPage] are the hook's values. *)
Definition render (props : State) : Rendered :=
  {| input_value := email props;
     input_disabled := isChecking props;
     message_line :=
       if truthy (message props)
       then Some (js "mb-4 text-center text-sm "
                    ++ getMessageColor (status props),
                  message props)
       else None;
     button_disabled := negb (truthy (email props)) || isChecking props;
     button_label :=
       if isChecking props then js "확인 중..."
       else js "이메일로 아이디 찾기" |}.

End FindIdComponent.

(** ** Sessions of the find-id form *)

Module Session.
Import UseFindId.

(** The state update a setter call stands for. *)
Definition apply_effect (st : State) (e : Effect) : State :=
  match e with
  | SetEmail v =>
      {| email := v; isChecking := isChecking st;
         status := status st; message := message st |}
  | SetIsChecking v =>
      {| email := email st; isChecking := v;
         status := status st; message := message st |}
  | SetStatus v =>
      {| email := email st; isChecking := isChecking st;
         status := v; message := message st |}
  | SetMessage v =>
      {| email := email st; isChecking := isChecking st;
         status := status st; message := v |}
  | Fetch _ => st
  end.

(** The state after a prefix of a handler's effects. *)
Definition replay (st : State) (l : list Effect) : State :=
  fold_left apply_effect l st.

(** The effects performed before the first request. *)
Fixpoint before_fetch (l : list Effect) : list Effect :=
  match l with
  | [] => []
  | Fetch _ :: _ => []
  | e :: r => e :: before_fetch r
  end.

(** What the user does: edit the field, or submit while the backend
    behaves as given. Each handler runs to its end before the next
    action. *)
Inductive Action : Type :=
| Edit (value : jsstring)
| Submit (fetch : Backend).

Definition step (zod_email : jsstring -> bool) (st : State) (a : Action)
  : State :=
  match a with
  | Edit value => final (onChangeEmail value st)
  | Submit fetch => final (onCheckEmail zod_email fetch st)
  end.

Definition session (zod_email : jsstring -> bool) (l : list Action) : State :=
  fold_left (step zod_email) l initial.

(** What holds between two actions of a session. *)
Definition settled (st : State) : Prop :=
  isChecking st = false /\
  ((status st = StatusNone /\ message st = []) \/
   (status st = StatusError /\
    (message st = MSG_INVALID_EMAIL \/ message st = MSG_NOT_REGISTERED)) \/
   (status st = StatusSuccess /\ message st = MSG_REGISTERED)).

End Session.
(** * Properties *)

(** ** Sanity checks of the string model *)

Example js_email_label : js "이메일" = [0xC774; 0xBA54; 0xC77C].
Proof. reflexivity. Qed.

Example js_ascii : js "a@b.com" = [0x61; 0x40; 0x62; 0x2E; 0x63; 0x6F; 0x6D].
Proof. reflexivity. Qed.

Example trim_blank : trim (js "   ") = [].
Proof. reflexivity. Qed.

Example trim_inner : trim (js "  a b ") = js "a b".
Proof. reflexivity. Qed.

(** ** Correctness of the pattern matcher *)

Section RegexCorrect.
Import Regex.

Lemma nullable_lang r : nullable r = true <-> lang r [].
Proof.
  induction r as [| | p | r1 IH1 r2 IH2 | r1 IH1 r2 IH2 | r1 IH1]; simpl.
  - split; [discriminate | intros H; inversion H].
  - split; [constructor | reflexivity].
  - split; [discriminate | intros H; inversion H].
  - rewrite andb_true_iff, IH1, IH2. split.
    + intros [H1 H2]. change (@nil N) with (@nil N ++ @nil N).
      constructor; assumption.
    + intros H. inversion H as [| |? ? s1 s2 Ha Hb Hr Hs| | | |]; subst.
      apply app_eq_nil in Hs as [-> ->]. auto.
  - rewrite orb_true_iff, IH1, IH2. split.
    + intros [H|H]; [apply L_alt_l | apply L_alt_r]; assumption.
    + intros H. inversion H; subst; auto.
  - split; [constructor | reflexivity].
Qed.

Lemma star_cons_inv r c s :
  lang (Star r) (c :: s) ->
  exists s1 s2, s = s1 ++ s2 /\ lang r (c :: s1) /\ lang (Star r) s2.
Proof.
  intros H. remember (Star r) as q eqn:Eq. remember (c :: s) as w eqn:Ew.
  revert s Eq Ew.
  induction H as [| | | | | r0 | r0 s1 s2 H1 _ H2 IH2]; intros s0 Eq Ew;
    try discriminate.
  injection Eq as ->.
  destruct s1 as [|d s1']; simpl in Ew.
  - apply IH2; auto.
  - injection Ew as Ec Es. subst d s0. exists s1', s2. auto.
Qed.

Lemma deriv_lang r : forall c s, lang (deriv c r) s <-> lang r (c :: s).
Proof.
  induction r as [| | p | r1 IH1 r2 IH2 | r1 IH1 r2 IH2 | r1 IH1];
    intros c s; simpl.
  - split; intros H; inversion H.
  - split; intros H; inversion H.
  - destruct (p c) eqn:Hp; split; intros H.
    + inversion H; subst. constructor; assumption.
    + inversion H; subst. constructor.
    + inversion H.
    + inversion H; subst. congruence.
  - assert (Hcat : lang (Cat (deriv c r1) r2) s ->  lang (Cat r1 r2) (c :: s)).
    { intros H. inversion H as [| |? ? s1 s2 Ha Hb| | | |]; subst.
      apply IH1 in Ha. change (c :: s1 ++ s2) with ((c :: s1) ++ s2).
      constructor; assumption. }
    assert (Hinv : lang (Cat r1 r2) (c :: s) ->
                   lang (Cat (deriv c r1) r2) s \/
                   (lang r1 [] /\ lang r2 (c :: s))).
    { intros H. inversion H as [| |? ? s1 s2 Ha Hb Hr Hs| | | |]; subst.
      destruct s1 as [|d s1']; simpl in Hs.
      - right. subst. auto.
      - injection Hs as -> <-. left. constructor; [apply IH1|]; assumption. }
    destruct (nullable r1) eqn:Hn; split; intros H.
    + inversion H; subst; [auto|].
      change (c :: s) with ([] ++ c :: s).
      constructor; [apply nullable_lang; assumption | apply IH2; assumption].
    + destruct (Hinv H) as [H'|[_ H']];
        [apply L_alt_l | apply L_alt_r; apply IH2]; assumption.
    + auto.
    + destruct (Hinv H) as [H'|[H' _]]; [assumption|].
      apply nullable_lang in H'. congruence.
  - split; intros H; inversion H; subst;
      solve [apply L_alt_l; apply IH1; assumption
            |apply L_alt_r; apply IH2; assumption].
  - split; intros H.
    + inversion H as [| |? ? s1 s2 Ha Hb| | | |]; subst.
      apply IH1 in Ha. change (c :: s1 ++ s2) with ((c :: s1) ++ s2).
      constructor; assumption.
    + apply star_cons_inv in H as (s1 & s2 & -> & Ha & Hb).
      constructor; [apply IH1|]; assumption.
Qed.

Lemma matches_lang s : forall r, matches r s = true <-> lang r s.
Proof.
  induction s as [|c s IH]; intros r; simpl.
  - apply nullable_lang.
  - rewrite IH. apply deriv_lang.
Qed.

Lemma test_lang r s : test r s = true <-> lang r s.
Proof. apply matches_lang. Qed.

(** A repeated character class matches the non-empty strings all of
    whose code units are in the class. *)
Lemma lang_star_class p s :
  lang (Star (Class p)) s <-> Forall (fun c => p c = true) s.
Proof.
  split.
  - intros H. remember (Star (Class p)) as q eqn:Eq.
    induction H as [| | | | | r0 | r0 s1 s2 H1 _ H2 IH2]; try discriminate.
    + constructor.
    + injection Eq as ->. inversion H1; subst. simpl. constructor; auto.
  - induction 1 as [|c s Hc _ IH].
    + constructor.
    + change (c :: s) with ([c] ++ s). constructor; [constructor|]; assumption.
Qed.

Lemma lang_plus_class p s :
  lang (Plus (Class p)) s <-> s <> [] /\ Forall (fun c => p c = true) s.
Proof.
  unfold Plus. split.
  - intros H. inversion H as [| |? ? s1 s2 Ha Hb| | | |]; subst.
    inversion Ha; subst. simpl. split; [discriminate|].
    constructor; [assumption | apply lang_star_class; assumption].
  - intros [Hne Hall]. destruct s as [|c s]; [congruence|].
    inversion Hall; subst. change (c :: s) with ([c] ++ s).
    constructor; [constructor | apply lang_star_class]; assumption.
Qed.

Lemma lang_chr c s : lang (Chr c) s <-> s = [c].
Proof.
  unfold Chr. split.
  - intros H. inversion H; subst. f_equal. symmetry. apply N.eqb_eq. assumption.
  - intros ->. constructor. apply N.eqb_refl.
Qed.

Lemma lang_cat r1 r2 s :
  lang (Cat r1 r2) s <-> exists s1 s2, s = s1 ++ s2 /\ lang r1 s1 /\ lang r2 s2.
Proof.
  split.
  - intros H. inversion H; subst. eauto.
  - intros (s1 & s2 & -> & H1 & H2). constructor; assumption.
Qed.

End RegexCorrect.

(** ** The email pattern *)

Section EmailPattern.
Import Regex AuthService EmailSpec.

Lemma notSpaceOrAt_plain c :
  notSpaceOrAt c = true <-> isWhiteSpace c = false /\ c <> AT.
Proof.
  unfold notSpaceOrAt, AT. rewrite negb_true_iff, orb_false_iff, N.eqb_neq.
  reflexivity.
Qed.

Lemma plus_class_plain p :
  lang (Plus (Class notSpaceOrAt)) p <-> plainPart p.
Proof.
  rewrite lang_plus_class. unfold plainPart.
  split; intros [Hne Hall]; split; try assumption;
    eapply Forall_impl; try eassumption; apply notSpaceOrAt_plain.
Qed.

(** What the pattern accepts, spelled out. *)
Lemma emailRegex_wellFormed s :
  test emailRegex s = true <-> wellFormed s.
Proof.
  rewrite test_lang. unfold emailRegex, wellFormed. split.
  - intros H.
    apply lang_cat in H as (l & s1 & -> & Hl & H).
    apply lang_cat in H as (a & s2 & -> & Ha & H).
    apply lang_cat in H as (d & s3 & -> & Hd & H).
    apply lang_cat in H as (o & t & -> & Ho & Ht).
    apply lang_chr in Ha as ->. apply lang_chr in Ho as ->.
    exists l, d, t. rewrite <- !plus_class_plain. auto.
  - intros (l & d & t & -> & Hl & Hd & Ht).
    apply plus_class_plain in Hl, Hd, Ht.
    apply lang_cat. exists l, (AT :: d ++ DOT :: t). split; [reflexivity|].
    split; [assumption|].
    apply lang_cat. exists [AT], (d ++ DOT :: t). split; [reflexivity|].
    split; [apply lang_chr; reflexivity|].
    apply lang_cat. exists d, (DOT :: t). split; [reflexivity|].
    split; [assumption|].
    apply lang_cat. exists [DOT], t. split; [reflexivity|].
    split; [apply lang_chr; reflexivity | assumption].
Qed.




End EmailPattern.

(** ** validateSignupData *)

Section Validation.
Import AuthService.

Lemma lookup_set_if cond k msg (errors : gmap string jsstring) k' :
  set_if cond k msg errors !! k' =
  if cond && bool_decide (k = k') then Some msg else errors !! k'.
Proof.
  unfold set_if. destruct cond; simpl; [|reflexivity].
  rewrite lookup_insert. destruct (decide (k = k')) as [e|n].
  - rewrite (bool_decide_eq_true_2 _ e). reflexivity.
  - rewrite (bool_decide_eq_false_2 _ n). reflexivity.
Qed.

Ltac lookup_validate :=
  unfold validateSignupData; rewrite !lookup_set_if, lookup_empty;
  repeat match goal with
         | |- context [bool_decide (?a = ?b)] =>
             first [ rewrite (bool_decide_eq_true_2 (a = b)) by reflexivity
                   | rewrite (bool_decide_eq_false_2 (a = b)) by discriminate ]
         end;
  rewrite ?andb_true_r, ?andb_false_r.

(** The entry of each key is decided by the checks of its own field,
    the later assignment winning. *)
Lemma validate_email data :
  validateSignupData data !! "email" =
  if email_malformed data then Some MSG_EMAIL_FORMAT
  else if negb (present (email data)) then Some MSG_EMAIL_REQUIRED
  else None.
Proof. lookup_validate. reflexivity. Qed.

Lemma validate_password data :
  validateSignupData data !! "password" =
  if password_short data then Some MSG_PASSWORD_LENGTH
  else if negb (present (password data)) then Some MSG_PASSWORD_REQUIRED
  else None.
Proof. lookup_validate. reflexivity. Qed.

Lemma validate_confirmPassword data :
  validateSignupData data !! "confirmPassword" =
  if password_mismatch data then Some MSG_PASSWORD_MISMATCH
  else if negb (present (confirmPassword data)) then Some MSG_CONFIRM_REQUIRED
  else None.
Proof. lookup_validate. reflexivity. Qed.

Lemma validate_username data :
  validateSignupData data !! "username" =
  if negb (present (username data)) then Some MSG_USERNAME_REQUIRED else None.
Proof. lookup_validate. reflexivity. Qed.

Lemma validate_address data :
  validateSignupData data !! "address" =
  if negb (present (address data)) then Some MSG_ADDRESS_REQUIRED else None.
Proof. lookup_validate. reflexivity. Qed.

Lemma validate_other data (k : string) :
  k <> "email" -> k <> "password" -> k <> "confirmPassword" ->
  k <> "username" -> k <> "address" ->
  validateSignupData data !! k = None.
Proof.
  intros H1 H2 H3 H4 H5.
  unfold validateSignupData. rewrite !lookup_set_if, lookup_empty.
  rewrite !bool_decide_eq_false_2 by congruence.
  rewrite !andb_false_r. reflexivity.
Qed.

Lemma absent_not_malformed data :
  present (email data) = false -> email_malformed data = false.
Proof.
  unfold email_malformed, present. destruct (email data); [|reflexivity].
  intros ->. reflexivity.
Qed.

Lemma absent_not_short data :
  present (password data) = false -> password_short data = false.
Proof.
  unfold password_short, present. destruct (password data); [|reflexivity].
  intros ->. reflexivity.
Qed.

Lemma mismatch_needs_both data :
  password_mismatch data = true ->
  present (password data) = true /\ present (confirmPassword data) = true.
Proof.
  unfold password_mismatch, present.
  destruct (password data), (confirmPassword data); try discriminate.
  rewrite !andb_true_iff. tauto.
Qed.

Lemma absent_not_mismatch data :
  present (password data) = false \/ present (confirmPassword data) = false ->
  password_mismatch data = false.
Proof.
  intros H. apply not_true_iff_false. intros Hm.
  apply mismatch_needs_both in Hm as [Hp Hc]. destruct H; congruence.
Qed.

(** C4: on a payload whose five fields are all empty (missing or the
    empty string) the result has exactly five entries, the required-field
    message of email, password, confirmPassword, username and address,
    and no other key. *)
Theorem validateSignupData_all_empty data
    (He : present (email data) = false)
    (Hp : present (password data) = false)
    (Hc : present (confirmPassword data) = false)
    (Hu : present (username data) = false)
    (Ha : present (address data) = false) :
  validateSignupData data =
    <["email" := MSG_EMAIL_REQUIRED]>
      (<["password" := MSG_PASSWORD_REQUIRED]>
         (<["confirmPassword" := MSG_CONFIRM_REQUIRED]>
            (<["username" := MSG_USERNAME_REQUIRED]>
               (<["address" := MSG_ADDRESS_REQUIRED]> ∅))))
  /\ size (validateSignupData data) = 5%nat
  /\ dom (validateSignupData data) =
       ({["email"; "password"; "confirmPassword"; "username"; "address"]}
          : gset string).
Proof.
  assert (E : validateSignupData data =
    <["email" := MSG_EMAIL_REQUIRED]>
      (<["password" := MSG_PASSWORD_REQUIRED]>
         (<["confirmPassword" := MSG_CONFIRM_REQUIRED]>
            (<["username" := MSG_USERNAME_REQUIRED]>
               (<["address" := MSG_ADDRESS_REQUIRED]> ∅))))).
  { apply map_eq. intros k.
    destruct (decide (k = "email")) as [->|N1].
    { rewrite validate_email, absent_not_malformed, He by assumption.
      reflexivity. }
    destruct (decide (k = "password")) as [->|N2].
    { rewrite validate_password, absent_not_short, Hp by assumption.
      reflexivity. }
    destruct (decide (k = "confirmPassword")) as [->|N3].
    { rewrite validate_confirmPassword, absent_not_mismatch, Hc by auto.
      reflexivity. }
    destruct (decide (k = "username")) as [->|N4].
    { rewrite validate_username, Hu. reflexivity. }
    destruct (decide (k = "address")) as [->|N5].
    { rewrite validate_address, Ha. reflexivity. }
    rewrite validate_other by assumption.
    rewrite !lookup_insert_ne by congruence. rewrite lookup_empty.
    reflexivity. }
  rewrite E. split; [reflexivity|]. split.
  - vm_compute. reflexivity.
  - rewrite !dom_insert_L, dom_empty_L. set_solver.
Qed.

Lemma validateSignupData_all_empty_witness :
  size (validateSignupData empty_payload) = 5%nat.
Proof.
  apply (validateSignupData_all_empty empty_payload); reflexivity.
Defined.

(** C5: a payload whose five fields are present, whose email matches the
    pattern and whose password equals its confirmation and has at least
    eight code units yields the empty mapping; a present password of
    length seven yields the password-length message under the password
    key. *)
Theorem validateSignupData_accepts_and_length :
  (forall data e p u a,
      email data = Some e -> password data = Some p ->
      confirmPassword data = Some p ->
      username data = Some u -> address data = Some a ->
      u <> [] -> a <> [] ->
      Regex.test emailRegex e = true ->
      (8 <= length p)%nat ->
      validateSignupData data = ∅) /\
  (forall data p,
      password data = Some p -> length p = 7%nat ->
      validateSignupData data !! "password" = Some MSG_PASSWORD_LENGTH).
Proof.
  split.
  - intros data e p u a He Hp Hc Hu Ha Une Ane Hre Hlen.
    assert (Ee : e <> []).
    { intros ->. vm_compute in Hre. discriminate. }
    assert (Ep : p <> []).
    { intros ->. simpl in Hlen. lia. }
    assert (Pe : present (email data) = true)
      by (rewrite He; destruct e; [congruence | reflexivity]).
    assert (Pp : present (password data) = true)
      by (rewrite Hp; destruct p; [congruence | reflexivity]).
    assert (Pc : present (confirmPassword data) = true)
      by (rewrite Hc; destruct p; [congruence | reflexivity]).
    assert (Pu : present (username data) = true)
      by (rewrite Hu; destruct u; [congruence | reflexivity]).
    assert (Pa : present (address data) = true)
      by (rewrite Ha; destruct a; [congruence | reflexivity]).
    assert (Me : email_malformed data = false).
    { unfold email_malformed. rewrite He, Hre. apply andb_false_r. }
    assert (Ms : password_short data = false).
    { unfold password_short. rewrite Hp.
      apply andb_false_iff. right. apply Nat.ltb_ge. assumption. }
    assert (Mm : password_mismatch data = false).
    { unfold password_mismatch, str_eqb. rewrite Hp, Hc.
      rewrite bool_decide_eq_true_2 by reflexivity. apply andb_false_r. }
    unfold validateSignupData.
    rewrite Pe, Pp, Pc, Pu, Pa, Me, Ms, Mm. reflexivity.
  - intros data p Hp Hlen. rewrite validate_password.
    unfold password_short. rewrite Hp.
    destruct p as [|c p']; [discriminate|]. simpl truthy.
    rewrite Hlen. reflexivity.
Qed.

Lemma validateSignupData_accepts_and_length_witness :
  validateSignupData
    {| email := Some (js "a@b.com"); password := Some (js "abcd1234");
       confirmPassword := Some (js "abcd1234");
       username := Some (js "neo"); address := Some (js "Seoul") |} = ∅ /\
  validateSignupData
    {| email := Some (js "a@b.com"); password := Some (js "abc1234");
       confirmPassword := Some (js "abc1234");
       username := Some (js "neo"); address := Some (js "Seoul") |}
    !! "password" = Some MSG_PASSWORD_LENGTH.
Proof.
  destruct validateSignupData_accepts_and_length as [Hok Hlen].
  split.
  - eapply Hok; simpl; try reflexivity; discriminate.
  - eapply Hlen; reflexivity.
Defined.

(** C6: when password and confirmPassword are both present and differ,
    the confirmPassword key holds the mismatch message whatever the
    other fields are; and nothing stops at a first failure: every other
    key holds, independently, the message its own field's checks call
    for, and no key outside the five fields is set. *)
Theorem validateSignupData_mismatch data p c
    (Hp : password data = Some p) (Hc : confirmPassword data = Some c)
    (Pne : p <> []) (Cne : c <> []) (Hdiff : p <> c) :
  validateSignupData data !! "confirmPassword" = Some MSG_PASSWORD_MISMATCH /\
  validateSignupData data !! "email" =
    match email data with
    | Some ((_ :: _) as e) =>
        if Regex.test emailRegex e then None else Some MSG_EMAIL_FORMAT
    | _ => Some MSG_EMAIL_REQUIRED
    end /\
  validateSignupData data !! "password" =
    (if (length p <? 8)%nat then Some MSG_PASSWORD_LENGTH else None) /\
  validateSignupData data !! "username" =
    match username data with
    | Some (_ :: _) => None
    | _ => Some MSG_USERNAME_REQUIRED
    end /\
  validateSignupData data !! "address" =
    match address data with
    | Some (_ :: _) => None
    | _ => Some MSG_ADDRESS_REQUIRED
    end /\
  (forall k : string,
      k <> "email" -> k <> "password" -> k <> "confirmPassword" ->
      k <> "username" -> k <> "address" ->
      validateSignupData data !! k = None).
Proof.
  repeat split.
  - rewrite validate_confirmPassword. unfold password_mismatch, str_eqb.
    rewrite Hp, Hc. destruct p; [congruence|]. destruct c; [congruence|].
    rewrite bool_decide_eq_false_2 by assumption. reflexivity.
  - rewrite validate_email. unfold email_malformed, present.
    destruct (email data) as [[|x e']|]; try reflexivity.
    cbn [truthy andb]. destruct (Regex.test emailRegex (x :: e')); reflexivity.
  - rewrite validate_password. unfold password_short, present.
    rewrite Hp. destruct p; [congruence|]. simpl truthy. simpl andb.
    destruct (_ <? _)%nat; reflexivity.
  - rewrite validate_username. unfold present.
    destruct (username data) as [[|x u]|]; reflexivity.
  - rewrite validate_address. unfold present.
    destruct (address data) as [[|x a]|]; reflexivity.
  - intros k. apply validate_other.
Qed.

Lemma validateSignupData_mismatch_witness :
  validateSignupData
    {| email := Some (js "a@b.com"); password := Some (js "abcd1234");
       confirmPassword := Some (js "abcd12345");
       username := Some (js "neo"); address := Some (js "Seoul") |}
    !! "confirmPassword" = Some MSG_PASSWORD_MISMATCH.
Proof.
  eapply validateSignupData_mismatch; try reflexivity; discriminate.
Defined.

(** C10: with a non-empty password and an empty confirmPassword the
    confirmPassword key holds the required-field message and not the
    mismatch message, whatever the password is; the mismatch check fires
    only when both fields are non-empty. *)
Theorem validateSignupData_confirm_required data p
    (Hp : password data = Some p) (Pne : p <> [])
    (Hc : present (confirmPassword data) = false) :
  validateSignupData data !! "confirmPassword" = Some MSG_CONFIRM_REQUIRED /\
  validateSignupData data !! "confirmPassword" <> Some MSG_PASSWORD_MISMATCH /\
  password_mismatch data = false.
Proof.
  assert (Hm : password_mismatch data = false)
    by (apply absent_not_mismatch; auto).
  rewrite validate_confirmPassword, Hm, Hc. simpl.
  repeat split. vm_compute. discriminate.
Qed.

Lemma validateSignupData_confirm_required_witness :
  validateSignupData
    {| email := Some (js "a@b.com"); password := Some (js "abcd1234");
       confirmPassword := Some [];
       username := Some (js "neo"); address := Some (js "Seoul") |}
    !! "confirmPassword" = Some MSG_CONFIRM_REQUIRED.
Proof.
  eapply validateSignupData_confirm_required; try reflexivity; discriminate.
Defined.

End Validation.

(** ** checkDuplicate *)

Section DuplicateCheck.
Import AuthService Samples.

Lemma trim_truthy value : trim value <> [] -> truthy (trim value) = true.
Proof. destruct (trim value); [congruence | reflexivity]. Qed.

(** C2: for both kinds and every value whose trim is empty,
    [checkDuplicate] throws the localized please-enter message of the
    kind and issues no request. *)
Theorem checkDuplicate_blank fetch type value (H : trim value = []) :
  fst (checkDuplicate fetch type value) = [] /\
  snd (checkDuplicate fetch type value) =
    Throw (ErrorObject
             match type with
             | TypeEmail => js "이메일을 입력해주세요."
             | TypeUsername => js "닉네임을 입력해주세요."
             end).
Proof.
  unfold checkDuplicate. rewrite H. simpl negb. cbv iota.
  split; [reflexivity|]. destruct type; reflexivity.
Qed.

Lemma checkDuplicate_blank_witness :
  fst (checkDuplicate conflict TypeEmail (js "   ")) = [] /\
  snd (checkDuplicate conflict TypeEmail (js "   ")) =
    Throw (ErrorObject (js "이메일을 입력해주세요.")).
Proof. apply (checkDuplicate_blank conflict TypeEmail (js "   ")). reflexivity. Defined.

(** Sanity checks of the conversions: [[1,[2,null],"a"]], [{}], [[]]
    and an object with an own [toString] property. *)
Example ToString_nested_array :
  ToString (JArray [JNumber false (js "1");
                    JArray [JNumber false (js "2"); JNull];
                    JString (js "a")]) = Normal (js "1,2,,a").
Proof. vm_compute. reflexivity. Qed.

Example ToString_plain_object :
  ToString (JObject [(js "code", JNumber false (js "7"))])
  = Normal (js "[object Object]").
Proof. vm_compute. reflexivity. Qed.

Example ToString_empty_array : ToString (JArray []) = Normal [].
Proof. reflexivity. Qed.

Example ToString_hidden_method :
  ToString (JObject [(js "toString", JNumber false (js "1"))])
  = Throw (ErrorObject not_primitive_message).
Proof. vm_compute. reflexivity. Qed.

Example ToBoolean_falsy :
  map ToBoolean [JNull; JBool false; JNumber true (js "0"); JString []]
  = [false; false; false; false].
Proof. reflexivity. Qed.

(** ToString throws nothing but the TypeError of a failed conversion. *)
Lemma ToString_throw v :
  forall t, ToString v = Throw t -> t = ErrorObject not_primitive_message.
Proof.
  induction v as [|b|z txt|s|items IH|props _] using json_induction;
    intros t H; cbn [ToString] in H.
  - discriminate H.
  - destruct b; discriminate H.
  - discriminate H.
  - discriminate H.
  - revert H. induction IH as [|x l Px _ IHl]; intros H; [discriminate H|].
    assert (Hx : forall u,
               (match x with JNull => Normal [] | _ => ToString x end)
               = Throw u -> u = ErrorObject not_primitive_message).
    { intros u Hu. destruct x; try discriminate Hu; apply Px in Hu; exact Hu. }
    destruct (match x with JNull => Normal [] | _ => ToString x end)
      as [sx|u] eqn:Ex.
    + destruct l as [|y l']; [discriminate H|].
      match type of H with
      | context [match ?j with Normal _ => _ | Throw _ => _ end] =>
          destruct j as [sr|u] eqn:Er
      end; [discriminate H|].
      injection H as <-. apply IHl. reflexivity.
    + injection H as <-. apply Hx. reflexivity.
  - destruct (has_property (js "toString") props); [|discriminate H].
    injection H as <-. reflexivity.
Qed.

(** The completion of a call answered with a status that is not a
    success and a JSON body other than null. *)
Lemma checkDuplicate_refused fetch type value r e :
  trim value <> [] ->
  fetch (check_request type value) = Responded r ->
  ok r = false ->
  response_body r = JsonValue e ->
  checkDuplicate fetch type value =
    ([check_request type value],
     match ToString (or_else e DUPLICATE_FALLBACK) with
     | Normal m => Throw (ErrorObject m)
     | Throw t => Throw t
     end).
Proof.
  intros Hv Hf Hok Hb.
  unfold checkDuplicate. rewrite (trim_truthy _ Hv). simpl negb. cbv iota.
  unfold try_catch, bind, await_fetch, await_json, get_error, new_Error,
    construct_Error.
  rewrite Hf, Hb, Hok. cbv [ret throw negb]. cbv beta iota zeta.
  destruct (ToString (or_else e DUPLICATE_FALLBACK)) as [m|t] eqn:Et.
  - reflexivity.
  - rewrite (ToString_throw _ _ Et). reflexivity.
Qed.

(** C3, as the code has it: for every value whose trim is not empty, one
    request is issued, and when it is answered: on a success status with
    a body that parses as JSON the call resolves to [true]; on another
    status with a JSON body other than null the call throws an Error
    whose message is the string form of the body's [error] field when
    that field is truthy (the field itself when it is a non-empty
    string) and the generic fallback when the field is missing or falsy;
    a truthy field whose conversion to a string fails gives the
    TypeError of that conversion. *)
Theorem checkDuplicate_answered fetch type value r
    (Hv : trim value <> [])
    (Hf : fetch (check_request type value) = Responded r) :
  fst (checkDuplicate fetch type value) = [check_request type value] /\
  (ok r = true -> (forall m, response_body r <> NotJson m) ->
   snd (checkDuplicate fetch type value) = Normal true) /\
  (ok r = false ->
   forall v m, response_body r = JsonValue (Some v) ->
               ToBoolean v = true -> ToString v = Normal m ->
   snd (checkDuplicate fetch type value) = Throw (ErrorObject m)) /\
  (ok r = false ->
   forall s, response_body r = JsonValue (Some (JString s)) -> s <> [] ->
   snd (checkDuplicate fetch type value) = Throw (ErrorObject s)) /\
  (ok r = false ->
   forall v, response_body r = JsonValue None \/
             (response_body r = JsonValue (Some v) /\ ToBoolean v = false) ->
   snd (checkDuplicate fetch type value) =
     Throw (ErrorObject DUPLICATE_FALLBACK)) /\
  (ok r = false ->
   forall v t, response_body r = JsonValue (Some v) ->
               ToBoolean v = true -> ToString v = Throw t ->
   snd (checkDuplicate fetch type value) =
     Throw (ErrorObject not_primitive_message)).
Proof.
  split; [|split; [|split; [|split; [|split]]]].
  - destruct (ok r) eqn:Hok.
    + unfold checkDuplicate. rewrite (trim_truthy _ Hv). simpl negb. cbv iota.
      unfold try_catch, bind, await_fetch, await_json. rewrite Hf, Hok.
      destruct (response_body r) as [e| |o]; reflexivity.
    + destruct (response_body r) as [e| |o] eqn:Hb.
      * unfold checkDuplicate. rewrite (trim_truthy _ Hv). simpl negb.
        cbv iota. unfold try_catch, bind, await_fetch, await_json.
        rewrite Hf, Hb. reflexivity.
      * unfold checkDuplicate. rewrite (trim_truthy _ Hv). simpl negb.
        cbv iota. unfold try_catch, bind, await_fetch, await_json.
        rewrite Hf, Hb, Hok. reflexivity.
      * rewrite (checkDuplicate_refused fetch type value r o Hv Hf Hok Hb).
        reflexivity.
  - intros Hok Hjson.
    unfold checkDuplicate. rewrite (trim_truthy _ Hv). simpl negb. cbv iota.
    unfold try_catch, bind, await_fetch, await_json. rewrite Hf, Hok.
    destruct (response_body r) as [e| |o]; try reflexivity.
    exfalso. apply (Hjson e). reflexivity.
  - intros Hok v m Hb Hv' Hs.
    rewrite (checkDuplicate_refused fetch type value r _ Hv Hf Hok Hb).
    unfold or_else. rewrite Hv', Hs. reflexivity.
  - intros Hok s Hb Hs.
    rewrite (checkDuplicate_refused fetch type value r _ Hv Hf Hok Hb).
    unfold or_else. destruct s; [congruence|]. reflexivity.
  - intros Hok v [Hb|[Hb Hv']];
      rewrite (checkDuplicate_refused fetch type value r _ Hv Hf Hok Hb);
      unfold or_else; rewrite ?Hv'; reflexivity.
  - intros Hok v t Hb Hv' Hs.
    rewrite (checkDuplicate_refused fetch type value r _ Hv Hf Hok Hb).
    unfold or_else. rewrite Hv', Hs.
    rewrite (ToString_throw _ _ Hs). reflexivity.
Qed.

Lemma checkDuplicate_answered_witness :
  snd (checkDuplicate conflict TypeEmail (js "a@b.com")) =
    Throw (ErrorObject (js "already exists")) /\
  snd (checkDuplicate conflict_number TypeEmail (js "a@b.com")) =
    Throw (ErrorObject (js "42")) /\
  snd (checkDuplicate available TypeEmail (js "a@b.com")) = Normal true.
Proof.
  assert (Hv : trim (js "a@b.com") <> []) by discriminate.
  split; [|split].
  - destruct (checkDuplicate_answered conflict TypeEmail (js "a@b.com") _
                Hv eq_refl) as (_ & _ & _ & Hs & _).
    apply Hs; [reflexivity | reflexivity | discriminate].
  - destruct (checkDuplicate_answered conflict_number TypeEmail (js "a@b.com")
                _ Hv eq_refl) as (_ & _ & Hm & _).
    apply (Hm eq_refl (JNumber false (js "42"))); reflexivity.
  - destruct (checkDuplicate_answered available TypeEmail (js "a@b.com") _
                Hv eq_refl) as (_ & Hok & _).
    apply Hok; [reflexivity | discriminate].
Defined.

(** C3 as stated fails: answered with status 200 and a body that is not
    JSON the call throws instead of resolving to [true]; answered with
    status 409 and an empty [error] string the message is the fallback,
    not the field; answered with status 409 and the body [null] the
    message is that of the TypeError, not the fallback. *)
Lemma checkDuplicate_answered_counterexample :
  (trim (js "a@b.com") <> [] /\
   ok {| http_status := 200;
         response_body := NotJson (js "Unexpected end of JSON input") |} = true /\
   snd (checkDuplicate empty_ok TypeEmail (js "a@b.com")) <> Normal true) /\
  (ok {| http_status := 409;
         response_body := JsonValue (Some (JString [])) |} = false /\
   snd (checkDuplicate conflict_blank TypeEmail (js "a@b.com")) <>
     Throw (ErrorObject [])) /\
  snd (checkDuplicate conflict_null TypeEmail (js "a@b.com")) <>
    Throw (ErrorObject DUPLICATE_FALLBACK).
Proof.
  repeat split; vm_compute; discriminate.
Qed.

End DuplicateCheck.

(** ** useFindId *)

Section FindId.
Import AuthService UseFindId Samples.

Variable zod_email : jsstring -> bool.
Variable fetch : Backend.

Lemma checkDuplicate_requests type value :
  trim value <> [] ->
  fst (checkDuplicate fetch type value) = [check_request type value].
Proof.
  intros Hv.
  destruct (fetch (check_request type value)) as [t|r] eqn:Hf.
  - unfold checkDuplicate. rewrite (trim_truthy _ Hv).
    simpl negb. cbv iota.
    unfold AuthService.try_catch, AuthService.bind, await_fetch.
    rewrite Hf. destruct t; reflexivity.
  - destruct (response_body r) as [e| |o] eqn:Hb.
    + unfold checkDuplicate. rewrite (trim_truthy _ Hv).
      simpl negb. cbv iota.
      unfold AuthService.try_catch, AuthService.bind, await_fetch, await_json.
      rewrite Hf, Hb. reflexivity.
    + unfold checkDuplicate. rewrite (trim_truthy _ Hv).
      simpl negb. cbv iota.
      unfold AuthService.try_catch, AuthService.bind, await_fetch, await_json.
      rewrite Hf, Hb. destruct (ok r); reflexivity.
    + destruct (ok r) eqn:Hok.
      * unfold checkDuplicate. rewrite (trim_truthy _ Hv).
        simpl negb. cbv iota.
        unfold AuthService.try_catch, AuthService.bind, await_fetch,
          await_json.
        rewrite Hf, Hb, Hok. reflexivity.
      * rewrite (checkDuplicate_refused fetch type value r o Hv Hf Hok Hb).
        reflexivity.
Qed.

(** The run of [onCheckEmail] on an email that passes the local check,
    in terms of the completion of the service call. *)
Lemma onCheckEmail_valid st :
  zod_email (email st) = true ->
  onCheckEmail zod_email fetch st =
    let svc := checkEmailDuplicate fetch (email st) in
    let s := match snd svc with
             | Normal _ => StatusError
             | Throw _ => StatusSuccess
             end in
    let m := match snd svc with
             | Normal _ => MSG_NOT_REGISTERED
             | Throw _ => MSG_REGISTERED
             end in
    ({| email := email st; isChecking := false; status := s; message := m |},
     [SetIsChecking true; SetStatus StatusChecking; SetMessage []]
       ++ map Fetch (fst svc)
       ++ [SetStatus s; SetMessage m; SetIsChecking false],
     Normal tt).
Proof.
  intros Hz.
  unfold onCheckEmail, emailSchema_safeParse, bind at 1, read_email.
  rewrite Hz.
  unfold bind, try_finally, try_catch, await, setIsChecking, setStatus,
    setMessage; cbn [email isChecking status message].
  destruct (checkEmailDuplicate fetch (email st)) as [l [b|t]];
    cbn [fst snd]; rewrite ?app_nil_r, <- ?app_assoc; reflexivity.
Qed.

(** The run of [onCheckEmail] on an email that fails the local check. *)
Lemma onCheckEmail_rejected st :
  zod_email (email st) = false ->
  onCheckEmail zod_email fetch st =
    ({| email := email st; isChecking := isChecking st;
        status := StatusError; message := MSG_INVALID_EMAIL |},
     [SetMessage MSG_INVALID_EMAIL; SetStatus StatusError],
     Normal tt).
Proof.
  intros Hz.
  unfold onCheckEmail, emailSchema_safeParse, bind at 1, read_email.
  rewrite Hz. reflexivity.
Qed.

(** C1, as the code has it: once the local check has passed and the
    request has been issued, a call that resolves leaves status ['error']
    with the message that the email is not registered, and a call that
    throws leaves status ['success'] with the message that the email is
    registered. *)
Theorem onCheckEmail_outcome st
    (Hz : zod_email (email st) = true) (Hv : trim (email st) <> []) :
  let run := onCheckEmail zod_email fetch st in
  requests (effects run) = [check_request TypeEmail (email st)] /\
  (forall b, snd (checkEmailDuplicate fetch (email st)) = Normal b ->
     status (final run) = StatusError /\
     message (final run) = MSG_NOT_REGISTERED) /\
  (forall t, snd (checkEmailDuplicate fetch (email st)) = Throw t ->
     status (final run) = StatusSuccess /\
     message (final run) = MSG_REGISTERED).
Proof.
  cbv zeta. rewrite (onCheckEmail_valid st Hz). cbv zeta.
  unfold final, effects. cbn [fst snd status message].
  split; [|split].
  - unfold checkEmailDuplicate. rewrite (checkDuplicate_requests _ _ Hv).
    reflexivity.
  - intros b ->. auto.
  - intros t ->. auto.
Qed.

(** C8: on an email that fails the local format check the handler sets
    the message to the format message and the status to ['error'],
    returns, issues no request and leaves [isChecking] as it was. *)
Theorem onCheckEmail_invalid st (Hz : zod_email (email st) = false) :
  let run := onCheckEmail zod_email fetch st in
  status (final run) = StatusError /\
  message (final run) = js "유효한 이메일 주소를 입력해주세요." /\
  isChecking (final run) = isChecking st /\
  effects run =
    [SetMessage (js "유효한 이메일 주소를 입력해주세요."); SetStatus StatusError] /\
  requests (effects run) = [] /\
  outcome run = Normal tt.
Proof.
  cbv zeta. rewrite (onCheckEmail_rejected st Hz).
  split; [|split; [|split; [|split; [|split]]]]; reflexivity.
Qed.

(** C9: whenever the local check passes, the handler ends with
    [isChecking] false and without throwing, whichever branch ran; and
    when the request is issued, [setIsChecking(false)] is the last
    effect, after the request and the branch's two updates. *)
Theorem onCheckEmail_cleanup st (Hz : zod_email (email st) = true) :
  let run := onCheckEmail zod_email fetch st in
  isChecking (final run) = false /\
  outcome run = Normal tt /\
  (forall b, snd (checkEmailDuplicate fetch (email st)) = Normal b ->
     isChecking (final run) = false) /\
  (forall t, snd (checkEmailDuplicate fetch (email st)) = Throw t ->
     isChecking (final run) = false) /\
  (trim (email st) <> [] ->
   exists s m,
     effects run =
       [SetIsChecking true; SetStatus StatusChecking; SetMessage [];
        Fetch (check_request TypeEmail (email st));
        SetStatus s; SetMessage m; SetIsChecking false]).
Proof.
  cbv zeta. rewrite (onCheckEmail_valid st Hz). cbv zeta.
  unfold final, effects, outcome. cbn [fst snd isChecking].
  repeat split.
  intros Hv. unfold checkEmailDuplicate.
  rewrite (checkDuplicate_requests _ _ Hv). simpl map. simpl app.
  eexists _, _. reflexivity.
Qed.

End FindId.

Section FindIdSamples.
Import AuthService UseFindId Samples.

Lemma onCheckEmail_outcome_witness :
  status (final (onCheckEmail (Regex.test emailRegex) available
                   (typed (js "a@b.com")))) = StatusError /\
  status (final (onCheckEmail (Regex.test emailRegex) conflict
                   (typed (js "a@b.com")))) = StatusSuccess.
Proof.
  split.
  - eapply (onCheckEmail_outcome (Regex.test emailRegex) available
              (typed (js "a@b.com"))); try reflexivity; discriminate.
  - eapply (onCheckEmail_outcome (Regex.test emailRegex) conflict
              (typed (js "a@b.com"))); try reflexivity; discriminate.
Defined.

(** C1 as stated fails: with the email [a@b.com] the call that resolves
    (status 200) leaves status ['error'] and the not-registered message,
    and the call that throws (status 409) leaves status ['success'] and
    the registered message. *)
Lemma onCheckEmail_outcome_counterexample :
  (Regex.test emailRegex (js "a@b.com") = true /\
   checkEmailDuplicate available (js "a@b.com") =
     ([check_request TypeEmail (js "a@b.com")], Normal true) /\
   status (final (onCheckEmail (Regex.test emailRegex) available
                    (typed (js "a@b.com")))) <> StatusSuccess /\
   message (final (onCheckEmail (Regex.test emailRegex) available
                     (typed (js "a@b.com")))) <> MSG_REGISTERED) /\
  (checkEmailDuplicate conflict (js "a@b.com") =
     ([check_request TypeEmail (js "a@b.com")],
      Throw (ErrorObject (js "already exists"))) /\
   status (final (onCheckEmail (Regex.test emailRegex) conflict
                    (typed (js "a@b.com")))) <> StatusError /\
   message (final (onCheckEmail (Regex.test emailRegex) conflict
                     (typed (js "a@b.com")))) <> MSG_NOT_REGISTERED).
Proof.
  repeat split; vm_compute; discriminate.
Qed.

Lemma onCheckEmail_invalid_witness :
  status (final (onCheckEmail (Regex.test emailRegex) available
                   (typed (js "bad-email")))) = StatusError /\
  requests (effects (onCheckEmail (Regex.test emailRegex) available
                       (typed (js "bad-email")))) = [] /\
  isChecking (final (onCheckEmail (Regex.test emailRegex) available
                       (typed (js "bad-email")))) = false.
Proof.
  destruct (onCheckEmail_invalid (Regex.test emailRegex) available
              (typed (js "bad-email")) eq_refl)
    as (Hs & _ & Hc & _ & Hr & _).
  auto.
Defined.

Lemma onCheckEmail_cleanup_witness :
  isChecking (final (onCheckEmail (Regex.test emailRegex) conflict
                       (typed (js "a@b.com")))) = false.
Proof.
  apply (onCheckEmail_cleanup (Regex.test emailRegex) conflict
           (typed (js "a@b.com"))). reflexivity.
Defined.

End FindIdSamples.

(** * Further properties *)

(** ** trim *)

Section Trim.

Local Abbreviation blank := (Forall (fun c => isWhiteSpace c = true)).

Lemma trimStart_blank_app pre x : blank pre -> trimStart (pre ++ x) = trimStart x.
Proof.
  induction 1 as [|c pre Hc _ IH]; simpl; [reflexivity|].
  rewrite Hc. assumption.
Qed.

Lemma trimStart_split s :
  exists pre, s = pre ++ trimStart s /\ blank pre /\
              forall c, head (trimStart s) = Some c -> isWhiteSpace c = false.
Proof.
  induction s as [|c s (pre & E & Hpre & Hhd)]; simpl.
  - exists []. repeat split; [constructor | discriminate].
  - destruct (isWhiteSpace c) eqn:Hc.
    + exists (c :: pre). simpl. rewrite <- E. repeat split; [|assumption].
      constructor; assumption.
    + exists []. repeat split; [constructor|].
      simpl. intros c' [= <-]. assumption.
Qed.

Lemma trimStart_fixed m :
  (forall c, head m = Some c -> isWhiteSpace c = false) -> trimStart m = m.
Proof.
  destruct m as [|c m]; simpl; [reflexivity|].
  intros H. rewrite (H c eq_refl). reflexivity.
Qed.

Lemma blank_rev s : blank s -> blank (rev s).
Proof. apply List.Forall_rev. Qed.

Lemma head_rev (s : jsstring) : head (rev s) = last s.
Proof.
  induction s as [|c s IH] using rev_ind; [reflexivity|].
  rewrite rev_app_distr, last_snoc. reflexivity.
Qed.

Lemma last_rev (s : jsstring) : last (rev s) = head s.
Proof. rewrite <- head_rev, rev_involutive. reflexivity. Qed.

Lemma trimEnd_app_blank x post : blank post -> trimEnd (x ++ post) = trimEnd x.
Proof.
  intros H. unfold trimEnd. rewrite rev_app_distr.
  rewrite trimStart_blank_app by (apply blank_rev; assumption). reflexivity.
Qed.

Lemma trimEnd_split s :
  exists post, s = trimEnd s ++ post /\ blank post /\
               forall c, last (trimEnd s) = Some c -> isWhiteSpace c = false.
Proof.
  unfold trimEnd. destruct (trimStart_split (rev s)) as (pre & E & Hpre & Hhd).
  exists (rev pre). repeat split.
  - rewrite <- rev_app_distr, <- E, rev_involutive. reflexivity.
  - apply blank_rev. assumption.
  - intros c. rewrite last_rev. apply Hhd.
Qed.

Lemma trimEnd_fixed m :
  (forall c, last m = Some c -> isWhiteSpace c = false) -> trimEnd m = m.
Proof.
  intros H. unfold trimEnd. rewrite trimStart_fixed.
  - apply rev_involutive.
  - intros c. rewrite head_rev. apply H.
Qed.

Lemma head_app_l (a b : jsstring) c : head a = Some c -> head (a ++ b) = Some c.
Proof. destruct a; [discriminate | trivial]. Qed.

(** [trim s] sits inside [s] between two runs of white space, and
    neither of its ends is white space. *)
Lemma trim_split s :
  exists pre post, s = pre ++ trim s ++ post /\ blank pre /\ blank post /\
                   tight (trim s).
Proof.
  unfold trim. destruct (trimStart_split s) as (pre & E & Hpre & Hhd).
  destruct (trimEnd_split (trimStart s)) as (post & E' & Hpost & Hlast).
  exists pre, post. repeat split; try assumption.
  - rewrite <- E'. assumption.
  - intros c Hc. apply Hhd. rewrite E'. apply head_app_l. assumption.
Qed.

(** Conversely a tight string between two runs of white space is the
    trim of the whole. *)
Lemma trim_unique pre m post :
  blank pre -> blank post -> tight m -> trim (pre ++ m ++ post) = m.
Proof.
  intros Hpre Hpost [Hhd Hlast]. unfold trim.
  rewrite trimStart_blank_app by assumption.
  destruct m as [|c m].
  - simpl. rewrite <- (app_nil_r post), trimStart_blank_app by assumption.
    reflexivity.
  - rewrite trimStart_fixed.
    + rewrite trimEnd_app_blank by assumption. apply trimEnd_fixed. assumption.
    + simpl. intros c' [= <-]. apply Hhd. reflexivity.
Qed.

Lemma trim_idempotent s : trim (trim s) = trim s.
Proof.
  destruct (trim_split s) as (_ & _ & _ & _ & _ & Ht).
  rewrite <- (app_nil_r (trim s)) at 1.
  apply (trim_unique [] (trim s) []); solve [constructor | assumption].
Qed.

Lemma trim_padding a s b : blank a -> blank b -> trim (a ++ s ++ b) = trim s.
Proof.
  intros Ha Hb. destruct (trim_split s) as (pre & post & E & Hpre & Hpost & Ht).
  rewrite E at 1.
  replace (a ++ (pre ++ trim s ++ post) ++ b)
    with ((a ++ pre) ++ trim s ++ (post ++ b))
    by (rewrite <- !app_assoc; reflexivity).
  apply trim_unique; try assumption; apply Forall_app; auto.
Qed.

End Trim.

(** ** checkDuplicate, beyond the answered cases *)

Section DuplicateCheckMore.
Import AuthService Samples.

Local Abbreviation blank := (Forall (fun c => isWhiteSpace c = true)).

(** Every way a call with a non-blank value can go. *)
Lemma checkDuplicate_run fetch type value :
  trim value <> [] ->
  checkDuplicate fetch type value =
    ([check_request type value],
     match fetch (check_request type value) with
     | NetworkFailure t =>
         Throw (if instanceofError t then t else ErrorObject DUPLICATE_FALLBACK)
     | Responded r =>
         match response_body r with
         | NotJson e => Throw (ErrorObject e)
         | JsonNull =>
             if ok r then Normal true
             else Throw (ErrorObject null_property_message)
         | JsonValue e =>
             if ok r then Normal true
             else match ToString (or_else e DUPLICATE_FALLBACK) with
                  | Normal m => Throw (ErrorObject m)
                  | Throw t => Throw t
                  end
         end
     end).
Proof.
  intros Hv.
  destruct (fetch (check_request type value)) as [t|r] eqn:Hf.
  - unfold checkDuplicate. rewrite (trim_truthy _ Hv).
    simpl negb. cbv iota.
    unfold AuthService.try_catch, AuthService.bind, await_fetch.
    rewrite Hf. destruct t; reflexivity.
  - destruct (response_body r) as [e| |o] eqn:Hb.
    + unfold checkDuplicate. rewrite (trim_truthy _ Hv).
      simpl negb. cbv iota.
      unfold AuthService.try_catch, AuthService.bind, await_fetch, await_json.
      rewrite Hf, Hb. reflexivity.
    + unfold checkDuplicate. rewrite (trim_truthy _ Hv).
      simpl negb. cbv iota.
      unfold AuthService.try_catch, AuthService.bind, await_fetch, await_json.
      rewrite Hf, Hb. destruct (ok r); reflexivity.
    + destruct (ok r) eqn:Hok.
      * unfold checkDuplicate. rewrite (trim_truthy _ Hv).
        simpl negb. cbv iota.
        unfold AuthService.try_catch, AuthService.bind, await_fetch,
          await_json.
        rewrite Hf, Hb, Hok. reflexivity.
      * apply (checkDuplicate_refused fetch type value r o Hv Hf Hok Hb).
Qed.

Lemma checkDuplicate_blank_run fetch type value :
  trim value = [] ->
  checkDuplicate fetch type value =
    ([], Throw (ErrorObject
                  ((if is_email type then js "이메일" else js "닉네임")
                     ++ js "을 입력해주세요."))).
Proof. intros Hv. unfold checkDuplicate. rewrite Hv. reflexivity. Qed.

(** X1: white space around the value is ignored: padding the value with
    white space on either side changes neither the request nor the
    completion. *)
Theorem checkDuplicate_padding fetch type a value b
    (Ha : blank a) (Hb : blank b) :
  checkDuplicate fetch type (a ++ value ++ b) = checkDuplicate fetch type value.
Proof.
  unfold checkDuplicate, check_request.
  rewrite (trim_padding a value b Ha Hb). reflexivity.
Qed.

Lemma checkDuplicate_padding_witness :
  checkDuplicate conflict TypeUsername (js "  " ++ js "neo" ++ js " ")
  = checkDuplicate conflict TypeUsername (js "neo").
Proof.
  apply checkDuplicate_padding; repeat constructor.
Defined.

(** X2: the value sent to the backend is the trimmed one: it is not empty,
    neither of its ends is white space, and the kind sent is the kind
    asked for. *)
Theorem checkDuplicate_sends_trimmed fetch type value req
    (Hreq : In req (fst (checkDuplicate fetch type value))) :
  payload_value (body req) = trim value /\
  payload_value (body req) <> [] /\
  tight (payload_value (body req)) /\
  payload_type (body req) = type.
Proof.
  destruct (trim value) as [|c r] eqn:Hv.
  - rewrite checkDuplicate_blank_run in Hreq by assumption. destruct Hreq.
  - assert (Hne : trim value <> []) by (rewrite Hv; discriminate).
    rewrite checkDuplicate_run in Hreq by assumption.
    destruct Hreq as [<-|[]]. simpl. rewrite Hv.
    repeat split; try discriminate; rewrite <- Hv;
      destruct (trim_split value) as (_ & _ & _ & _ & _ & Ht); apply Ht.
Qed.

Lemma checkDuplicate_sends_trimmed_witness :
  payload_value (body (check_request TypeEmail (js " a@b.com ")))
  = js "a@b.com".
Proof.
  apply (checkDuplicate_sends_trimmed available TypeEmail (js " a@b.com ")).
  left. reflexivity.
Defined.

(** X3: a call issues no request when the value is blank and exactly one
    otherwise, whatever the backend does. *)
Theorem checkDuplicate_request_count fetch type value :
  (trim value = [] <-> fst (checkDuplicate fetch type value) = []) /\
  (trim value <> [] <->
   fst (checkDuplicate fetch type value) = [check_request type value]).
Proof.
  destruct (trim value) as [|c r] eqn:Hv.
  - rewrite checkDuplicate_blank_run by assumption. simpl.
    split; split; intros; try reflexivity; congruence.
  - assert (Hne : trim value <> []) by (rewrite Hv; discriminate).
    rewrite checkDuplicate_run by assumption. simpl.
    split; split; intros; try reflexivity; congruence.
Qed.

(** X4: whatever goes wrong, what is thrown is an Error object: its message
    is what [getErrorMessage] shows, never the unknown-error text of a
    non-Error value. *)
Theorem checkDuplicate_throws_errors fetch type value t
    (Ht : snd (checkDuplicate fetch type value) = Throw t) :
  instanceofError t = true /\ t = ErrorObject (UseFindId.getErrorMessage t).
Proof.
  assert (H : instanceofError t = true).
  { destruct (trim value) as [|c r] eqn:Hv.
    - rewrite checkDuplicate_blank_run in Ht by assumption.
      injection Ht as <-. reflexivity.
    - assert (Hne : trim value <> []) by (rewrite Hv; discriminate).
      rewrite checkDuplicate_run in Ht by assumption. simpl in Ht.
      destruct (fetch (check_request type value)) as [u|r0].
      + injection Ht as <-. destruct u; reflexivity.
      + destruct (response_body r0) as [e| |o], (ok r0); try discriminate;
          try (injection Ht as <-; reflexivity).
        destruct (ToString (or_else o DUPLICATE_FALLBACK)) as [m|u] eqn:Es.
        * injection Ht as <-. reflexivity.
        * injection Ht as <-. rewrite (ToString_throw _ _ Es). reflexivity. }
  split; [assumption|]. destruct t; try discriminate. reflexivity.
Qed.

Lemma checkDuplicate_throws_errors_witness :
  instanceofError (ErrorObject DUPLICATE_FALLBACK) = true /\
  ErrorObject DUPLICATE_FALLBACK =
    ErrorObject (UseFindId.getErrorMessage (ErrorObject DUPLICATE_FALLBACK)).
Proof.
  apply (checkDuplicate_throws_errors (fun _ => NetworkFailure OtherValue)
           TypeEmail (js "a@b.com")).
  reflexivity.
Defined.

(** X5: when [fetch] itself rejects: an Error is thrown on as it is, any
    other rejection value is replaced by an Error with the fallback
    message. *)
Theorem checkDuplicate_network_failure fetch type value t
    (Hv : trim value <> [])
    (Hf : fetch (check_request type value) = NetworkFailure t) :
  (forall m, t = ErrorObject m ->
     snd (checkDuplicate fetch type value) = Throw (ErrorObject m)) /\
  (instanceofError t = false ->
     snd (checkDuplicate fetch type value) =
       Throw (ErrorObject (js "중복 확인 중 오류가 발생했습니다."))).
Proof.
  rewrite checkDuplicate_run by assumption. rewrite Hf. simpl.
  split.
  - intros m ->. reflexivity.
  - intros ->. reflexivity.
Qed.

Lemma checkDuplicate_network_failure_witness :
  snd (checkDuplicate (fun _ => NetworkFailure (StringValue (js "offline")))
         TypeEmail (js "a@b.com")) =
    Throw (ErrorObject (js "중복 확인 중 오류가 발생했습니다.")).
Proof.
  apply (checkDuplicate_network_failure
           (fun _ => NetworkFailure (StringValue (js "offline")))
           TypeEmail (js "a@b.com") (StringValue (js "offline")));
    [discriminate | reflexivity | reflexivity].
Defined.

Lemma checkDuplicate_normal_iff fetch type value b :
  snd (checkDuplicate fetch type value) = Normal b <->
  b = true /\ trim value <> [] /\
  exists r, fetch (check_request type value) = Responded r /\
            ok r = true /\ forall m, response_body r <> NotJson m.
Proof.
  destruct (trim value) as [|c s] eqn:Hv.
  - rewrite checkDuplicate_blank_run by assumption. simpl.
    split; [discriminate | intros (_ & H & _); congruence].
  - assert (Hne : trim value <> []) by (rewrite Hv; discriminate).
    rewrite checkDuplicate_run by assumption. simpl.
    destruct (fetch (check_request type value)) as [u|r].
    + split; [discriminate | intros (_ & _ & r & [=] & _)].
    + split.
      * intros H. destruct (response_body r) as [e| |o] eqn:Hb,
            (ok r) eqn:Hok;
          try discriminate;
          try (destruct (ToString (or_else o DUPLICATE_FALLBACK));
               discriminate);
          injection H as <-;
          (split; [reflexivity|]); (split; [discriminate|]);
          exists r; rewrite ?Hb;
          (split; [reflexivity | split; [assumption | intros m; discriminate]]).
      * intros (-> & _ & r' & [= <-] & Hok & Hb). rewrite Hok.
        destruct (response_body r) as [e| |e]; try reflexivity.
        exfalso. apply (Hb e). reflexivity.
Qed.

(** X6: the call resolves exactly when the value is not blank and the
    backend answers with a success status and a body that parses as
    JSON; the value it resolves to is always [true]. *)
Theorem checkDuplicate_resolves_iff fetch type value b :
  snd (checkDuplicate fetch type value) = Normal b <->
  b = true /\ trim value <> [] /\
  exists r, fetch (check_request type value) = Responded r /\
            ok r = true /\ forall m, response_body r <> NotJson m.
Proof. apply checkDuplicate_normal_iff. Qed.

(** X7: a body that is not JSON makes the call throw the parse error
    whatever the status is: the status is looked at only after the body
    has been parsed. *)
Theorem checkDuplicate_not_json fetch type value r e
    (Hv : trim value <> [])
    (Hf : fetch (check_request type value) = Responded r)
    (Hb : response_body r = NotJson e) :
  snd (checkDuplicate fetch type value) = Throw (ErrorObject e).
Proof.
  rewrite checkDuplicate_run by assumption. rewrite Hf. simpl.
  rewrite Hb. reflexivity.
Qed.

Lemma checkDuplicate_not_json_witness :
  snd (checkDuplicate (answering 500 (NotJson (js "Unexpected token <")))
         TypeEmail (js "a@b.com")) =
    Throw (ErrorObject (js "Unexpected token <")).
Proof.
  eapply (checkDuplicate_not_json
            (answering 500 (NotJson (js "Unexpected token <")))
            TypeEmail (js "a@b.com")); [discriminate | reflexivity | reflexivity].
Defined.

End DuplicateCheckMore.

(** ** validateSignupData, beyond the stated cases *)

Section ValidationMore.
Import AuthService EmailSpec.

Lemma present_inv (v : option jsstring) :
  present v = true -> exists s, v = Some s /\ s <> [].
Proof.
  destruct v as [[|c s]|]; try discriminate.
  intros _. exists (c :: s). split; [reflexivity | discriminate].
Qed.

Lemma present_intro (v : option jsstring) s :
  v = Some s -> s <> [] -> present v = true.
Proof. intros -> H. destruct s; [congruence | reflexivity]. Qed.

Lemma truthy_intro s : s <> [] -> truthy s = true.
Proof. destruct s; [congruence | reflexivity]. Qed.

(** X8: the result is empty exactly for the payloads the checks accept: all
    five fields non-empty, the email matching the pattern, the password
    of at least eight code units and equal to its confirmation. *)
Theorem validateSignupData_empty_iff data :
  validateSignupData data = ∅ <->
  exists e p u a,
    email data = Some e /\ password data = Some p /\
    confirmPassword data = Some p /\
    username data = Some u /\ address data = Some a /\
    u <> [] /\ a <> [] /\
    Regex.test emailRegex e = true /\ (8 <= length p)%nat.
Proof.
  split.
  - intros E.
    assert (He : validateSignupData data !! "email" = None)
      by (rewrite E; apply lookup_empty).
    assert (Hp : validateSignupData data !! "password" = None)
      by (rewrite E; apply lookup_empty).
    assert (Hc : validateSignupData data !! "confirmPassword" = None)
      by (rewrite E; apply lookup_empty).
    assert (Hu : validateSignupData data !! "username" = None)
      by (rewrite E; apply lookup_empty).
    assert (Ha : validateSignupData data !! "address" = None)
      by (rewrite E; apply lookup_empty).
    rewrite validate_email in He. rewrite validate_password in Hp.
    rewrite validate_confirmPassword in Hc.
    rewrite validate_username in Hu. rewrite validate_address in Ha.
    destruct (email_malformed data) eqn:Me; [discriminate|].
    destruct (present (email data)) eqn:Pe; [|discriminate].
    destruct (password_short data) eqn:Ms; [discriminate|].
    destruct (present (password data)) eqn:Pp; [|discriminate].
    destruct (password_mismatch data) eqn:Mm; [discriminate|].
    destruct (present (confirmPassword data)) eqn:Pc; [|discriminate].
    destruct (present (username data)) eqn:Pu; [|discriminate].
    destruct (present (address data)) eqn:Pa; [|discriminate].
    apply present_inv in Pe as (e & Ee & Ne), Pp as (p & Ep & Np),
        Pc as (c & Ec & Nc), Pu as (u & Eu & Nu), Pa as (a & Ea & Na).
    unfold email_malformed in Me. rewrite Ee, (truthy_intro _ Ne) in Me.
    cbn [andb] in Me. apply negb_false_iff in Me.
    unfold password_short in Ms. rewrite Ep, (truthy_intro _ Np) in Ms.
    cbn [andb] in Ms. apply Nat.ltb_ge in Ms.
    unfold password_mismatch, str_eqb in Mm.
    rewrite Ep, Ec, (truthy_intro _ Np), (truthy_intro _ Nc) in Mm.
    cbn [andb] in Mm.
    apply negb_false_iff, bool_decide_eq_true in Mm. subst c.
    exists e, p, u, a. auto 10.
  - intros (e & p & u & a & Ee & Ep & Ec & Eu & Ea & Nu & Na & Hre & Hlen).
    assert (Ne : e <> []) by (intros ->; vm_compute in Hre; discriminate).
    assert (Np : p <> []) by (intros ->; simpl in Hlen; lia).
    assert (Me : email_malformed data = false).
    { unfold email_malformed. rewrite Ee, Hre. apply andb_false_r. }
    assert (Ms : password_short data = false).
    { unfold password_short. rewrite Ep.
      apply andb_false_iff. right. apply Nat.ltb_ge. assumption. }
    assert (Mm : password_mismatch data = false).
    { unfold password_mismatch, str_eqb. rewrite Ep, Ec.
      rewrite bool_decide_eq_true_2 by reflexivity. apply andb_false_r. }
    unfold validateSignupData.
    rewrite (present_intro _ _ Ee Ne), (present_intro _ _ Ep Np),
      (present_intro _ _ Ec Np), (present_intro _ _ Eu Nu),
      (present_intro _ _ Ea Na), Me, Ms, Mm.
    reflexivity.
Qed.

(** X9: whatever the payload, the keys of the result are among the five
    field names, so it has at most five entries. *)
Theorem validateSignupData_keys data :
  dom (validateSignupData data) ⊆
    ({["email"; "password"; "confirmPassword"; "username"; "address"]}
       : gset string) /\
  (size (validateSignupData data) <= 5)%nat.
Proof.
  assert (H : dom (validateSignupData data) ⊆
    ({["email"; "password"; "confirmPassword"; "username"; "address"]}
       : gset string)).
  { intros k Hk. apply elem_of_dom in Hk as [v Hv].
    destruct (decide (k = "email")) as [->|N1]; [set_solver|].
    destruct (decide (k = "password")) as [->|N2]; [set_solver|].
    destruct (decide (k = "confirmPassword")) as [->|N3]; [set_solver|].
    destruct (decide (k = "username")) as [->|N4]; [set_solver|].
    destruct (decide (k = "address")) as [->|N5]; [set_solver|].
    rewrite validate_other in Hv by assumption. discriminate. }
  split; [assumption|].
  rewrite <- size_dom. apply subseteq_size in H.
  etransitivity; [exact H|]. vm_compute. lia.
Qed.

(** What the pattern demands of every string it accepts: no white
    space, exactly one [@], at least five code units. *)
Lemma emailRegex_necessary s :
  Regex.test emailRegex s = true ->
  (forall c, In c s -> isWhiteSpace c = false) /\
  count_occ N.eq_dec s AT = 1%nat /\
  (5 <= length s)%nat.
Proof.
  intros H. apply emailRegex_wellFormed in H
    as (l & d & t & -> & [Nl Hl] & [Nd Hd] & [Nt Ht]).
  assert (Hcount : forall p,
             Forall (fun c => isWhiteSpace c = false /\ c <> AT) p ->
             count_occ N.eq_dec p AT = 0%nat).
  { intros p Hp. apply count_occ_not_In. intros Hin.
    rewrite Forall_forall in Hp. rewrite <- list_elem_of_In in Hin.
    destruct (Hp _ Hin) as [_ Hne]. congruence. }
  split; [|split].
  - intros c Hc.
    apply in_app_or in Hc as [Hc|[<-|Hc]];
      [| reflexivity |apply in_app_or in Hc as [Hc|[<-|Hc]]];
      try reflexivity;
      rewrite <- list_elem_of_In in Hc;
      match goal with
      | Hp : Forall _ ?p, Hc : _ ∈ ?p |- _ =>
          rewrite Forall_forall in Hp; apply (Hp _ Hc)
      end.
  - rewrite count_occ_app, count_occ_cons_eq by reflexivity.
    rewrite count_occ_app, count_occ_cons_neq by discriminate.
    rewrite !Hcount by assumption. reflexivity.
  - rewrite length_app. simpl. rewrite length_app. simpl.
    destruct l; [congruence|]. destruct d; [congruence|].
    destruct t; [congruence|]. simpl. lia.
Qed.

(** X10: a non-empty email that contains white space, or does not contain
    exactly one [@], or is shorter than five code units gets the format
    message. *)
Theorem validateSignupData_email_rejected data e
    (He : email data = Some e) (Hne : e <> [])
    (Hbad : (exists c, In c e /\ isWhiteSpace c = true) \/
            count_occ N.eq_dec e AT <> 1%nat \/
            (length e < 5)%nat) :
  validateSignupData data !! "email" = Some MSG_EMAIL_FORMAT.
Proof.
  rewrite validate_email. unfold email_malformed.
  rewrite He, (truthy_intro _ Hne).
  destruct (Regex.test emailRegex e) eqn:Hre; [|reflexivity].
  exfalso. apply emailRegex_necessary in Hre as (Hws & Hat & Hlen).
  destruct Hbad as [(c & Hc & Hw)|[H|H]].
  - rewrite (Hws c Hc) in Hw. discriminate.
  - congruence.
  - lia.
Qed.

Lemma validateSignupData_email_rejected_witness :
  validateSignupData
    {| email := Some (js "a@b@c.com"); password := None;
       confirmPassword := None; username := None; address := None |}
    !! "email" = Some MSG_EMAIL_FORMAT.
Proof.
  eapply validateSignupData_email_rejected;
    [reflexivity | discriminate | right; left; vm_compute; discriminate].
Defined.

(** X11: the validation does not trim: a username made of white space only
    counts as entered, while the duplicate check of the same value
    refuses it as missing without asking the backend. *)
Theorem blank_username_passes_validation data fetch u
    (Hu : username data = Some u) (Hne : u <> []) (Hblank : trim u = []) :
  validateSignupData data !! "username" = None /\
  checkUsernameDuplicate fetch u =
    ([], Throw (ErrorObject (js "닉네임을 입력해주세요."))).
Proof.
  split.
  - rewrite validate_username, (present_intro _ _ Hu Hne). reflexivity.
  - unfold checkUsernameDuplicate.
    rewrite checkDuplicate_blank_run by assumption. vm_compute. reflexivity.
Qed.

Lemma blank_username_passes_validation_witness :
  validateSignupData
    {| email := None; password := None; confirmPassword := None;
       username := Some (js "   "); address := None |}
    !! "username" = None.
Proof.
  eapply (blank_username_passes_validation _ Samples.available (js "   "));
    [reflexivity | discriminate | reflexivity].
Defined.

End ValidationMore.

(** ** useFindId, the component and sessions *)

Section FindIdMore.
Import AuthService UseFindId FindIdComponent Session Samples.

Variable zod_email : jsstring -> bool.

Lemma requests_app l1 l2 : requests (l1 ++ l2) = requests l1 ++ requests l2.
Proof. unfold requests. apply flat_map_app. Qed.

Lemma requests_fetches l : requests (map Fetch l) = l.
Proof.
  unfold requests. induction l as [|r l IH]; simpl; [reflexivity|].
  f_equal. assumption.
Qed.

Lemma service_requests_le fetch type value :
  (length (fst (checkDuplicate fetch type value)) <= 1)%nat.
Proof.
  destruct (trim value) as [|c r] eqn:Hv.
  - rewrite checkDuplicate_blank_run by assumption. simpl. lia.
  - rewrite checkDuplicate_run by (rewrite Hv; discriminate). simpl. lia.
Qed.

(** X12: for every state and backend the handler returns normally (the
    promise it gives is never rejected), leaves the email as it was and
    issues at most one request. *)
Theorem onCheckEmail_never_rejects fetch st :
  let run := onCheckEmail zod_email fetch st in
  outcome run = Normal tt /\
  email (final run) = email st /\
  (length (requests (effects run)) <= 1)%nat.
Proof.
  cbv zeta. destruct (zod_email (email st)) eqn:Hz.
  - rewrite (onCheckEmail_valid zod_email fetch st Hz). cbv zeta.
    unfold outcome, final, effects. cbn [fst snd email].
    repeat split.
    rewrite !requests_app, requests_fetches. simpl.
    rewrite app_nil_r. apply service_requests_le.
  - rewrite (onCheckEmail_rejected zod_email fetch st Hz).
    unfold outcome, final, effects. cbn [fst snd email]. simpl.
    repeat split. lia.
Qed.

(** X13: after a submit the status is ['error'] or ['success'] and the
    message is one of the hook's own three texts: what the server or the
    service put in the thrown error is never shown. *)
Theorem onCheckEmail_own_messages fetch st :
  let run := onCheckEmail zod_email fetch st in
  (status (final run) = StatusError /\
   message (final run) = MSG_INVALID_EMAIL) \/
  (status (final run) = StatusError /\
   message (final run) = MSG_NOT_REGISTERED) \/
  (status (final run) = StatusSuccess /\
   message (final run) = MSG_REGISTERED).
Proof.
  cbv zeta. destruct (zod_email (email st)) eqn:Hz.
  - rewrite (onCheckEmail_valid zod_email fetch st Hz). cbv zeta.
    unfold final. cbn [fst snd status message].
    destruct (snd (checkEmailDuplicate fetch (email st)));
      [right; left | right; right]; split; reflexivity.
  - rewrite (onCheckEmail_rejected zod_email fetch st Hz).
    left. split; reflexivity.
Qed.

(** X14: after a submit that passed the local check, the status is ['error']
    (not registered) exactly when the email is not blank and the backend
    answered with a success status and a body that parses as JSON; in
    every other case it is ['success']. *)
Theorem onCheckEmail_error_iff fetch st (Hz : zod_email (email st) = true) :
  let run := onCheckEmail zod_email fetch st in
  (status (final run) = StatusError <->
   trim (email st) <> [] /\
   exists r, fetch (check_request TypeEmail (email st)) = Responded r /\
             ok r = true /\ forall m, response_body r <> NotJson m) /\
  (status (final run) <> StatusError -> status (final run) = StatusSuccess).
Proof.
  cbv zeta. rewrite (onCheckEmail_valid zod_email fetch st Hz). cbv zeta.
  unfold final. cbn [fst snd status]. unfold checkEmailDuplicate.
  destruct (snd (checkDuplicate fetch TypeEmail (email st))) as [b|t] eqn:Hs.
  - apply checkDuplicate_normal_iff in Hs as (_ & Hv & Hr).
    split; [|congruence]. split; auto.
  - split; [|reflexivity]. split; [discriminate|].
    intros (Hv & Hr). exfalso.
    assert (H : snd (checkDuplicate fetch TypeEmail (email st)) = Normal true)
      by (apply checkDuplicate_normal_iff; auto).
    congruence.
Qed.

(** X15: a request that fails on the network is reported like a
    registered email: status ['success'] with the registered message. *)
Theorem onCheckEmail_network_failure fetch st t
    (Hz : zod_email (email st) = true) (Hv : trim (email st) <> [])
    (Hf : fetch (check_request TypeEmail (email st)) = NetworkFailure t) :
  let run := onCheckEmail zod_email fetch st in
  status (final run) = StatusSuccess /\
  message (final run) = MSG_REGISTERED /\
  isChecking (final run) = false.
Proof.
  cbv zeta. rewrite (onCheckEmail_valid zod_email fetch st Hz). cbv zeta.
  unfold final. cbn [fst snd status message isChecking].
  unfold checkEmailDuplicate.
  rewrite checkDuplicate_run by assumption. rewrite Hf. simpl.
  repeat split.
Qed.

Lemma replay_app st l1 l2 : replay st (l1 ++ l2) = replay (replay st l1) l2.
Proof. unfold replay. apply fold_left_app. Qed.

Lemma replay_fetches st l : replay st (map Fetch l) = st.
Proof.
  revert st. induction l as [|r l IH]; intros st; [reflexivity|].
  simpl. apply IH.
Qed.

(** X16: while the request is in flight, that is in the state the setters
    called before the request leave, the input and the submit button are
    disabled, the button reads that the check is going on and no message
    is shown. *)
Theorem onCheckEmail_in_flight fetch st
    (Hz : zod_email (email st) = true) (Hv : trim (email st) <> []) :
  let pending :=
    replay st (before_fetch (effects (onCheckEmail zod_email fetch st))) in
  isChecking pending = true /\
  status pending = StatusChecking /\
  input_disabled (render pending) = true /\
  button_disabled (render pending) = true /\
  button_label (render pending) = js "확인 중..." /\
  message_line (render pending) = None.
Proof.
  cbv zeta. rewrite (onCheckEmail_valid zod_email fetch st Hz). cbv zeta.
  unfold effects. cbn [fst snd]. unfold checkEmailDuplicate.
  rewrite checkDuplicate_run by assumption. cbn [fst map app before_fetch].
  unfold replay, render. simpl.
  rewrite orb_true_r. repeat split.
Qed.

(** The state a handler leaves is the one its setter calls add up to. *)
Lemma onCheckEmail_replay fetch st :
  replay st (effects (onCheckEmail zod_email fetch st))
  = final (onCheckEmail zod_email fetch st).
Proof.
  destruct (zod_email (email st)) eqn:Hz.
  - rewrite (onCheckEmail_valid zod_email fetch st Hz). cbv zeta.
    unfold effects, final. cbn [fst snd].
    rewrite !replay_app, replay_fetches. reflexivity.
  - rewrite (onCheckEmail_rejected zod_email fetch st Hz). reflexivity.
Qed.

Lemma step_settled st a : settled st -> settled (step zod_email st a).
Proof.
  intros [Hc _]. destruct a as [v|fetch]; simpl.
  - split; [assumption|]. left. split; reflexivity.
  - destruct (zod_email (email st)) eqn:Hz.
    + rewrite (onCheckEmail_valid zod_email fetch st Hz). cbv zeta.
      unfold final, settled. cbn [fst snd isChecking status message].
      split; [reflexivity|].
      destruct (snd (checkEmailDuplicate fetch (email st)));
        [right; left; split; [reflexivity | right; reflexivity]
        |right; right; split; reflexivity].
    + rewrite (onCheckEmail_rejected zod_email fetch st Hz).
      unfold final, settled. cbn [fst snd isChecking status message].
      split; [assumption|].
      right; left; split; [reflexivity | left; reflexivity].
Qed.

Lemma fold_settled l : forall st,
  settled st -> settled (fold_left (step zod_email) l st).
Proof.
  induction l as [|a l IH]; intros st H; simpl; [assumption|].
  apply IH, step_settled, H.
Qed.

Lemma session_settled l : settled (session zod_email l).
Proof.
  apply fold_settled. split; [reflexivity|]. left. split; reflexivity.
Qed.

(** X17: between the actions of a session, however long, nothing is pending
    and status and message agree: both empty, or ['error'] with the
    format or the not-registered text, or ['success'] with the
    registered text. The status is never left at ['checking']. *)
Theorem session_consistent l :
  let st := session zod_email l in
  isChecking st = false /\
  ((status st = StatusNone /\ message st = []) \/
   (status st = StatusError /\
    (message st = MSG_INVALID_EMAIL \/
     message st = MSG_NOT_REGISTERED)) \/
   (status st = StatusSuccess /\ message st = MSG_REGISTERED)).
Proof. apply session_settled. Qed.

(** X18: what the component shows between the actions of a session: the input
    is enabled, the button is disabled exactly when the email is empty
    and carries its idle label, and the message line is absent for the
    empty status, red for ['error'] and green, with the registered
    text, for ['success']. *)
Theorem session_render l :
  let st := session zod_email l in
  input_disabled (render st) = false /\
  (button_disabled (render st) = true <-> email st = []) /\
  button_label (render st) = js "이메일로 아이디 찾기" /\
  message_line (render st) =
    match status st with
    | StatusNone | StatusChecking => None
    | StatusError =>
        Some (js "mb-4 text-center text-sm text-red-600", message st)
    | StatusSuccess =>
        Some (js "mb-4 text-center text-sm text-green-600",
              MSG_REGISTERED)
    end.
Proof.
  cbv zeta. destruct (session_settled l) as [Hc Hs].
  unfold render. cbn [input_disabled button_disabled button_label message_line].
  rewrite Hc, orb_false_r.
  split; [reflexivity|]. split; [|split; [reflexivity|]].
  - destruct (email (session zod_email l)); simpl; split;
      intros; congruence.
  - destruct Hs as [[-> ->]|[[-> [-> | ->]]|[-> ->]]];
      try reflexivity; cbn [truthy MSG_INVALID_EMAIL];
      solve [ reflexivity
            | f_equal; f_equal; vm_compute; reflexivity ].
Qed.

(** X19: editing the field after anything else brings the hook to the state
    of a fresh form holding the new value: status and message empty,
    nothing pending. *)
Theorem session_edit_resets l value :
  session zod_email (l ++ [Edit value]) = typed value.
Proof.
  unfold session. rewrite fold_left_app. simpl.
  destruct (session_settled l) as [Hc _]. unfold session in Hc.
  unfold typed, final, onChangeEmail, UseFindId.bind, setEmail, setStatus,
    setMessage. cbn [fst snd email isChecking status message].
  rewrite Hc. reflexivity.
Qed.

End FindIdMore.

Section FindIdMoreSamples.
Import AuthService UseFindId FindIdComponent Session Samples.

Lemma onCheckEmail_error_iff_witness :
  status (final (onCheckEmail (Regex.test emailRegex) available
                   (typed (js "a@b.com")))) = StatusError.
Proof.
  destruct (onCheckEmail_error_iff (Regex.test emailRegex) available
              (typed (js "a@b.com")) eq_refl) as [[_ H] _].
  apply H. split; [discriminate|].
  eexists. split; [reflexivity|].
  split; [reflexivity | intros m; discriminate].
Defined.

Lemma onCheckEmail_network_failure_witness :
  status (final (onCheckEmail (Regex.test emailRegex)
                   (fun _ => NetworkFailure (ErrorObject (js "Failed to fetch")))
                   (typed (js "a@b.com")))) = StatusSuccess.
Proof.
  eapply (onCheckEmail_network_failure (Regex.test emailRegex)
            (fun _ => NetworkFailure (ErrorObject (js "Failed to fetch")))
            (typed (js "a@b.com")));
    [reflexivity | discriminate | reflexivity].
Defined.

Lemma onCheckEmail_in_flight_witness :
  button_disabled
    (render (replay (typed (js "a@b.com"))
               (before_fetch
                  (effects (onCheckEmail (Regex.test emailRegex) available
                              (typed (js "a@b.com"))))))) = true.
Proof.
  eapply (onCheckEmail_in_flight (Regex.test emailRegex) available
            (typed (js "a@b.com"))); [reflexivity | discriminate].
Defined.

End FindIdMoreSamples.

(** ** signup *)

Section SignupProperties.
Import Signup.

Variable P : Type.
Variable fetch : SignupRequest P -> SignupFetchResult.

(** Every way a call can go. *)
Lemma signup_run (signupData : P) :
  signup fetch signupData =
    match fetch (signup_request signupData) with
    | SignupNetworkFailure t =>
        ([Requested (signup_request signupData);
          ConsoleError SIGNUP_LOG_LABEL t], Throw (rethrown t))
    | SignupResponded r =>
        match signup_response_body r with
        | SignupNotJson e =>
            ([Requested (signup_request signupData);
              ConsoleError SIGNUP_LOG_LABEL (ErrorObject e)],
             Throw (ErrorObject e))
        | SignupNull =>
            let t := ErrorObject
                       (null_read_message
                          (if signup_ok r then js "success" else js "error")) in
            ([Requested (signup_request signupData);
              ConsoleError SIGNUP_LOG_LABEL t], Throw t)
        | SignupValue e s n =>
            if signup_ok r then
              ([Requested (signup_request signupData)],
               Normal {| success := s; needsVerification := n |})
            else
              let t := ErrorObject
                         match ToString (or_else e SIGNUP_FALLBACK) with
                         | Normal m => m
                         | Throw _ => not_primitive_message
                         end in
              ([Requested (signup_request signupData);
                ConsoleError SIGNUP_LOG_LABEL t], Throw t)
        end
    end.
Proof.
  unfold signup, try_catch, bind, await_fetch, await_json, console_error,
    rethrown.
  destruct (fetch (signup_request signupData)) as [[m|s|]|r]; try reflexivity.
  destruct (signup_response_body r) as [e| |e s n], (signup_ok r);
    try reflexivity.
  cbv [get_error new_Error construct_Error ret throw negb].
  cbv beta iota zeta.
  destruct (ToString (or_else e SIGNUP_FALLBACK)) as [m|u] eqn:Es.
  - reflexivity.
  - rewrite (ToString_throw _ _ Es). reflexivity.
Qed.

(** X20: [signup] checks nothing locally: for every payload it issues the
    request first, with the payload as its body, and whatever follows in
    its trace is a [console.error] line. *)
Theorem signup_requests_first (signupData : P) :
  exists rest,
    fst (signup fetch signupData) =
      Requested (signup_request signupData) :: rest /\
    signup_body (signup_request signupData) = signupData /\
    (length rest <= 1)%nat /\
    forall ev, In ev rest -> exists t, ev = ConsoleError SIGNUP_LOG_LABEL t.
Proof.
  rewrite signup_run.
  destruct (fetch (signup_request signupData)) as [t|r].
  - eexists. split; [reflexivity|]. split; [reflexivity|].
    split; [simpl; lia|]. intros ev [<-|[]]. eauto.
  - destruct (signup_response_body r) as [e| |e s n];
      [| |destruct (signup_ok r)]; cbv zeta;
      eexists; (split; [reflexivity|]); (split; [reflexivity|]);
      (split; [simpl; lia|]); simpl; intros ev H;
      repeat (destruct H as [<-|H]; [eauto|]); destruct H.
Qed.

(** X21: a call that throws throws an Error object and has written exactly
    one [console.error] line, after the request, with the value that was
    caught: the Error thrown when it was one, else the value that the
    fallback Error replaces. A call that resolves has written none. *)
Theorem signup_logs_failures (signupData : P) :
  (forall t, snd (signup fetch signupData) = Throw t ->
     instanceofError t = true /\
     exists caught,
       fst (signup fetch signupData) =
         [Requested (signup_request signupData);
          ConsoleError SIGNUP_LOG_LABEL caught] /\
       (instanceofError caught = true -> t = caught) /\
       (instanceofError caught = false ->
        t = ErrorObject (SIGNUP_FALLBACK))) /\
  (forall res, snd (signup fetch signupData) = Normal res ->
     fst (signup fetch signupData) = [Requested (signup_request signupData)]).
Proof.
  rewrite signup_run.
  destruct (fetch (signup_request signupData)) as [u|r].
  - split; [|discriminate]. intros t [= <-]. cbn [fst]. split.
    + unfold rethrown. destruct u; reflexivity.
    + exists u. split; [reflexivity|]. unfold rethrown.
      split; intros ->; reflexivity.
  - destruct (signup_response_body r) as [e| |e s n];
      [| |destruct (signup_ok r)]; cbv zeta; cbn [fst snd];
      (split; [|try discriminate; reflexivity]);
      try discriminate;
      intros t [= <-]; (split; [reflexivity|]);
      eexists; (split; [reflexivity|]);
      (split; [reflexivity | discriminate]).
Qed.

(** X22: the call resolves exactly when the backend answers with a success
    status and a JSON body other than null, and the result carries the
    body's [success] and [needsVerification] as they are, undefined
    included. *)
Theorem signup_resolves_iff (signupData : P) res :
  snd (signup fetch signupData) = Normal res <->
  exists r e,
    fetch (signup_request signupData) = SignupResponded r /\
    signup_ok r = true /\
    signup_response_body r =
      SignupValue e (success res) (needsVerification res).
Proof.
  rewrite signup_run.
  destruct (fetch (signup_request signupData)) as [u|r].
  - split; [discriminate | intros (r & e & [=] & _)].
  - split.
    + intros H. exists r.
      destruct (signup_response_body r) as [e| |e s n];
        [discriminate | discriminate |].
      destruct (signup_ok r); [|discriminate].
      injection H as <-. exists e. auto.
    + intros (r' & e & [= <-] & Hok & Hb). rewrite Hb, Hok.
      destruct res. reflexivity.
Qed.

(** X23: on a status that is not a success, with a JSON body other than
    null, the Error thrown carries the string form of the body's [error]
    when that field is truthy (the field itself when it is a non-empty
    string) and the signup fallback when the field is missing or falsy;
    a truthy field whose conversion to a string fails gives the
    TypeError of that conversion. *)
Theorem signup_refused (signupData : P) r e s n
    (Hf : fetch (signup_request signupData) = SignupResponded r)
    (Hok : signup_ok r = false)
    (Hb : signup_response_body r = SignupValue e s n) :
  (forall v m, e = Some v -> ToBoolean v = true -> ToString v = Normal m ->
     snd (signup fetch signupData) = Throw (ErrorObject m)) /\
  (forall m, e = Some (JString m) -> m <> [] ->
     snd (signup fetch signupData) = Throw (ErrorObject m)) /\
  (e = None \/ (exists v, e = Some v /\ ToBoolean v = false) ->
     snd (signup fetch signupData) = Throw (ErrorObject SIGNUP_FALLBACK)) /\
  (forall v t, e = Some v -> ToBoolean v = true -> ToString v = Throw t ->
     snd (signup fetch signupData) =
       Throw (ErrorObject not_primitive_message)).
Proof.
  rewrite signup_run, Hf, Hb, Hok. cbv zeta. cbn [snd].
  split; [|split; [|split]].
  - intros v m -> Hv Hs. unfold or_else. rewrite Hv, Hs. reflexivity.
  - intros m -> Hm. unfold or_else. destruct m; [congruence | reflexivity].
  - intros [->|(v & -> & Hv)]; unfold or_else; rewrite ?Hv; reflexivity.
  - intros v t -> Hv Hs. unfold or_else. rewrite Hv, Hs. reflexivity.
Qed.

End SignupProperties.

Section SignupSamples.
Import Signup.

Lemma signup_refused_witness :
  snd (signup
         (fun _ : SignupRequest AuthService.SignupData =>
            SignupResponded
              {| signup_status := 409;
                 signup_response_body :=
                   SignupValue (Some (JString (js "already exists")))
                     None None |})
         AuthService.empty_payload)
  = Throw (ErrorObject (js "already exists")) /\
  snd (signup
         (fun _ : SignupRequest AuthService.SignupData =>
            SignupResponded
              {| signup_status := 409;
                 signup_response_body :=
                   SignupValue (Some (JNumber false (js "42"))) None None |})
         AuthService.empty_payload)
  = Throw (ErrorObject (js "42")).
Proof.
  split.
  - destruct (signup_refused AuthService.SignupData
                (fun _ =>
                   SignupResponded
                     {| signup_status := 409;
                        signup_response_body :=
                          SignupValue (Some (JString (js "already exists")))
                            None None |})
                AuthService.empty_payload _ _ _ _ eq_refl eq_refl eq_refl)
      as (_ & Hs & _).
    apply Hs; [reflexivity | discriminate].
  - destruct (signup_refused AuthService.SignupData
                (fun _ =>
                   SignupResponded
                     {| signup_status := 409;
                        signup_response_body :=
                          SignupValue (Some (JNumber false (js "42")))
                            None None |})
                AuthService.empty_payload _ _ _ _ eq_refl eq_refl eq_refl)
      as (Hm & _).
    apply (Hm (JNumber false (js "42"))); reflexivity.
Defined.

End SignupSamples.
